(** * Karta queue monitor: change detection, wait-time estimate, broadcast

    A shallow embedding of the Go packages [models] (queue.go),
    [bot] (telegram_bot.go), [database] (sqlite.go) and of
    [processQueueUpdate] from cmd/main.go, followed by the properties of
    the change-detection and broadcast engine.

    Conventions of the embedding:
    - Go [int] is a 64-bit two's complement integer: a [Z] kept in range by
      [wrap64];
    - a Go [string] is its byte sequence: a Rocq [string];
    - a Go panic (nil dereference, integer division by zero) is the
      [panic] outcome of the [go] monad;
    - [*QueueData] is an optional location into an explicit heap;
    - the collaborators that can fail at run time (SQLite, the Telegram
      API) answer through the oracles of an [Env] record. *)

From Stdlib Require Import ZArith Ascii String List Lia Bool.
From stdpp Require Import base option list gmap strings pretty.

Local Open Scope string_scope.
Local Open Scope Z_scope.

(** ** Go runtime basics *)

Module Go.

(** Outcome of a Go call that may panic. *)
Inductive go (A : Type) : Type :=
| ret (a : A)
| panic.
Arguments ret {A} a.
Arguments panic {A}.

Definition bind {A B : Type} (m : go A) (k : A -> go B) : go B :=
  match m with
  | ret a => k a
  | panic => panic
  end.

Definition MaxInt64 : Z := 9223372036854775807.
Definition MinInt64 : Z := -9223372036854775808.

(** Two's complement reduction of an integer to 64 bits. *)
Definition wrap64 (z : Z) : Z := (z + 2 ^ 63) mod 2 ^ 64 - 2 ^ 63.

(** [a - b] and [a * b] on [int]. *)
Definition int_sub (a b : Z) : Z := wrap64 (a - b).
Definition int_mul (a b : Z) : Z := wrap64 (a * b).

(** [a / b] on [int]: truncated quotient, run-time panic when [b] is 0. *)
Definition int_div (a b : Z) : go Z :=
  if b =? 0 then panic else ret (wrap64 (Z.quot a b)).

(** The Go [error] values this program builds. *)
Inductive error : Type :=
| errorString (msg : string)                 (* fmt.Errorf without verb *)
| errNoNumber (what : string) (arg : string) (* fmt.Errorf("no number found in ...: %s") *)
| errSyntax (s : string)                     (* strconv.ErrSyntax *)
| errRange (s : string)                      (* strconv.ErrRange *)
| errWrap (msg : string) (e : error).        (* fmt.Errorf("...: %w", err) *)

(** [char >= '0' && char <= '9'].  The loops of the program range over the
    runes of a string; a rune in this interval is always a single byte of
    the string and no byte of a longer rune lies in it, so the test is
    made byte by byte. *)
Definition isDigit (c : ascii) : bool :=
  let n := Z.of_nat (nat_of_ascii c) in (48 <=? n) && (n <=? 57).

Definition digitVal (c : ascii) : Z := Z.of_nat (nat_of_ascii c) - 48.

Fixpoint allDigits (s : string) : bool :=
  match s with
  | EmptyString => true
  | String c s' => isDigit c && allDigits s'
  end.

(** Decimal value of a digit string, most significant digit first. *)
Fixpoint decimal (acc : Z) (s : string) : Z :=
  match s with
  | EmptyString => acc
  | String c s' => decimal (10 * acc + digitVal c) s'
  end.

(** [strconv.Atoi]: optional sign, then one or more decimal digits; a
    value outside [int] is a range error (the nearest bound is returned
    with it). *)
Definition Atoi (s : string) : Z * option error :=
  let '(neg, body) :=
    match s with
    | String c s' =>
      if Ascii.eqb c "-" then (true, s')
      else if Ascii.eqb c "+" then (false, s')
      else (false, s)
    | EmptyString => (false, s)
    end in
  match body with
  | EmptyString => (0, Some (errSyntax s))
  | _ =>
    if allDigits body then
      let n := decimal 0 body in
      if neg then
        if n <=? 2 ^ 63 then (- n, None) else (MinInt64, Some (errRange s))
      else
        if n <=? MaxInt64 then (n, None) else (MaxInt64, Some (errRange s))
    else (0, Some (errSyntax s))
  end.

End Go.

Export Go.

#[export] Instance go_ret : MRet go := @ret.
#[export] Instance go_bind : MBind go := fun A B k m => bind m k.

(** ** time.Time *)

(** An instant in nanoseconds since the zero time (January 1, year 1,
    00:00:00 UTC), with the offset in seconds of the zone it is shown in. *)
Record Time : Type := mkTime { ns : Z; zone : Z }.

Definition zeroTime : Time := mkTime 0 0.

Definition IsZero (t : Time) : bool := ns t =? 0.

Definition pad2 (n : Z) : string :=
  if n <? 10 then "0" ++ pretty n else pretty n.

(** [t.Format("15:04:05")] *)
Definition Format_15_04_05 (t : Time) : string :=
  let secs := ns t / 1000000000 + zone t in
  pad2 ((secs / 3600) mod 24) ++ ":" ++ pad2 ((secs / 60) mod 60) ++ ":"
    ++ pad2 (secs mod 60).

(** ** Package models (queue.go) *)

(** Heap locations of [QueueData] objects; [None] is the nil pointer. *)
Definition loc : Type := positive.
Definition ptr : Type := option loc.

(** QueueData represents the queue information from the DUW website. *)
Record QueueData : Type := mkQueueData {
  Name : string;
  ServedClients : string;
  WaitingClients : string;
  Workplaces : string;
  AvgServiceTime : string;
  AvgWaitTime : string;
  LastTicket : string;
  TicketsLeft : string;
  Status : string;
  LastUpdated : Time;
  LastChanged : Time
}.

(** [q.LastChanged = t] *)
Definition setLastChanged (t : Time) (q : QueueData) : QueueData :=
  mkQueueData (Name q) (ServedClients q) (WaitingClients q) (Workplaces q)
    (AvgServiceTime q) (AvgWaitTime q) (LastTicket q) (TicketsLeft q)
    (Status q) (LastUpdated q) t.

(** QueueChanges represents changes between two queue states. *)
Record QueueChanges : Type := mkQueueChanges {
  HasChanges : bool;
  ChangedFields : gmap string bool;
  PreviousData : ptr;
  CurrentData : ptr
}.

(** [m[key]] on a [map[string]bool]: the zero value when the key is absent. *)
Definition index (m : gmap string bool) (key : string) : bool :=
  default false (m !! key).

(** Reading through a [*QueueData]. *)
Definition deref (h : gmap loc QueueData) (p : ptr) : go QueueData :=
  match p with
  | Some l => match h !! l with Some q => ret q | None => panic end
  | None => panic
  end.

(** [changes.HasChanges = true; changes.ChangedFields[key] = true] *)
Definition mark (key : string) (changes : QueueChanges) : QueueChanges :=
  mkQueueChanges true (<[key := true]> (ChangedFields changes))
    (PreviousData changes) (CurrentData changes).

(** CompareQueues compares two QueueData instances and returns changes.
    Excludes AvgServiceTime and AvgWaitTime from comparison. *)
Definition CompareQueues (h : gmap loc QueueData) (previous current : ptr)
  : go QueueChanges :=
  match previous with
  | None => ret (mkQueueChanges true ∅ None current)
  | Some _ =>
    let changes := mkQueueChanges false ∅ previous current in
    p ← deref h previous;
    c ← deref h current;
    let changes :=
      if decide (Name p ≠ Name c) then mark "name" changes else changes in
    let changes :=
      if decide (ServedClients p ≠ ServedClients c)
      then mark "served_clients" changes else changes in
    let changes :=
      if decide (WaitingClients p ≠ WaitingClients c)
      then mark "waiting_clients" changes else changes in
    let changes :=
      if decide (Workplaces p ≠ Workplaces c)
      then mark "workplaces" changes else changes in
    let changes :=
      if decide (LastTicket p ≠ LastTicket c)
      then mark "last_ticket" changes else changes in
    let changes :=
      if decide (TicketsLeft p ≠ TicketsLeft c)
      then mark "tickets_left" changes else changes in
    let changes :=
      if decide (Status p ≠ Status c) then mark "status" changes else changes in
    ret changes
  end.

(** IsEmpty checks if queue data is empty/invalid. *)
Definition IsEmpty (q : QueueData) : bool :=
  bool_decide (Name q = "") && bool_decide (ServedClients q = "")
    && bool_decide (WaitingClients q = "").

(** Clone creates a deep copy of QueueData: a nil receiver gives nil,
    otherwise a new object is allocated with every field copied. *)
Definition Clone (h : gmap loc QueueData) (q : ptr)
  : go (ptr * gmap loc QueueData) :=
  match q with
  | None => ret (None, h)
  | Some _ =>
    v ← deref h q;
    let l := fresh (dom h) in
    ret (Some l,
         <[l := mkQueueData (Name v) (ServedClients v) (WaitingClients v)
                  (Workplaces v) (AvgServiceTime v) (AvgWaitTime v)
                  (LastTicket v) (TicketsLeft v) (Status v) (LastUpdated v)
                  (LastChanged v)]> h)
  end.

(** *** The wait-time estimate *)

(** The loop of [extractTicketNumber]: every digit of the string is
    appended to [numStr]. *)
Fixpoint collectDigits (numStr : string) (s : string) : string :=
  match s with
  | EmptyString => numStr
  | String char s' =>
    if isDigit char then collectDigits (numStr ++ String char "") s'
    else collectDigits numStr s'
  end.

(** extractTicketNumber extracts the numeric part from a ticket string. *)
Definition extractTicketNumber (ticket : string) : Z * option error :=
  let numStr := collectDigits "" ticket in
  if decide (numStr = "") then (0, Some (errNoNumber "ticket" ticket))
  else Atoi numStr.

(** The loop shared by [parseServiceTime] and [parseWorkplaces]: digits are
    appended to [numStr], and the first non-digit met once [numStr] is not
    empty ends the loop. *)
Fixpoint firstDigitRun (numStr : string) (s : string) : string :=
  match s with
  | EmptyString => numStr
  | String char s' =>
    if isDigit char then firstDigitRun (numStr ++ String char "") s'
    else if decide (numStr ≠ "") then numStr
    else firstDigitRun numStr s'
  end.

(** parseServiceTime extracts minutes from service time string. *)
Definition parseServiceTime (serviceTime : string) : Z * option error :=
  let numStr := firstDigitRun "" serviceTime in
  if decide (numStr = "") then (0, Some (errNoNumber "service time" serviceTime))
  else Atoi numStr.

(** parseWorkplaces extracts number from workplaces string. *)
Definition parseWorkplaces (workplaces : string) : Z * option error :=
  let numStr := firstDigitRun "" workplaces in
  if decide (numStr = "") then (0, Some (errNoNumber "workplaces" workplaces))
  else Atoi numStr.

(** CalculateWaitTime calculates estimated wait time for a user's ticket. *)
Definition CalculateWaitTime (q : QueueData) (userTicket : string)
  : go (Z * option error) :=
  if decide (userTicket = "" ∨ LastTicket q = "")
  then ret (0, Some (errorString "missing ticket information"))
  else
    match extractTicketNumber userTicket with
    | (_, Some err) => ret (0, Some (errWrap "invalid user ticket format" err))
    | (userNum, None) =>
      match extractTicketNumber (LastTicket q) with
      | (_, Some err) =>
        ret (0, Some (errWrap "invalid current ticket format" err))
      | (currentNum, None) =>
        let ticketsRemaining := int_sub userNum currentNum in
        if ticketsRemaining <=? 0 then ret (0, None)
        else
          match parseServiceTime (AvgServiceTime q) with
          | (_, Some err) =>
            ret (0, Some (errWrap "invalid service time format" err))
          | (avgServiceMinutes, None) =>
            match parseWorkplaces (Workplaces q) with
            | (_, Some err) =>
              ret (0, Some (errWrap "invalid workplaces format" err))
            | (workplaces, None) =>
              let workplaces := if workplaces <=? 0 then 1 else workplaces in
              let totalServiceTime := int_mul ticketsRemaining avgServiceMinutes in
              estimatedWaitMinutes ← int_div totalServiceTime workplaces;
              ret (estimatedWaitMinutes, None)
            end
          end
      end
    end.

(** *** The Telegram message *)

Definition LF : string := String "010"%char EmptyString.

(** Characters escaped for Telegram MarkdownV2: each is a single byte, so
    the replacer works byte by byte. *)
Definition needsEscape (c : ascii) : bool :=
  bool_decide (c ∈ list_ascii_of_string "_*[]()~`>#+-=|{}.!").

(** escapeMarkdown escapes special characters for Telegram MarkdownV2. *)
Fixpoint escapeMarkdown (text : string) : string :=
  match text with
  | EmptyString => EmptyString
  | String c text' =>
    if needsEscape c then String "\"%char (String c (escapeMarkdown text'))
    else String c (escapeMarkdown text')
  end.

(** The closure [formatField] of the renderer: one line per field, with
    the marker of a changed or an unchanged field. *)
Definition formatField (changes : option QueueChanges)
    (label value fieldKey : string) : string :=
  let emoji :=
    match changes with
    | Some ch => if index (ChangedFields ch) fieldKey then "🟢" else "⚪"
    | None => "⚪"
    end in
  emoji ++ " *" ++ label ++ ":* " ++ escapeMarkdown value ++ LF.

(** The block of the renderer guarded by [userTicket != ""]: the text it
    appends to the builder. *)
Definition ticketInfo (q : QueueData) (userTicket : string) : go string :=
  if decide (userTicket ≠ "") then
    '(waitTime, err) ← CalculateWaitTime q userTicket;
    if bool_decide (err = None) && (waitTime >? 0) then
      let hours := Z.quot waitTime 60 in
      let minutes := Z.rem waitTime 60 in
      let timeStr :=
        if hours >? 0 then pretty hours ++ " ч\. " ++ pretty minutes ++ " мин\."
        else pretty minutes ++ " мин\." in
      ret (LF ++ "🎫 *Ваш билет " ++ escapeMarkdown userTicket
              ++ " \- осталось:* " ++ timeStr)
    else if bool_decide (err = None) && (waitTime =? 0) then
      ret (LF ++ "🎫 *Ваш билет " ++ escapeMarkdown userTicket
              ++ " \- ваша очередь\!*")
    else ret ""
  else ret "".

(** FormatTelegramMessageWithTicket formats queue data for Telegram message
    with user ticket info. *)
Definition FormatTelegramMessageWithTicket (q : QueueData)
    (changes : option QueueChanges) (userTicket : string) : go string :=
  let builder := "🏢 *Очередь: odbiór karty \(Wrocław\)*" ++ LF ++ LF in
  let builder := builder ++ formatField changes "Обслужено" (ServedClients q) "served_clients" in
  let builder := builder ++ formatField changes "Ожидает" (WaitingClients q) "waiting_clients" in
  let builder := builder ++ formatField changes "Стоек" (Workplaces q) "workplaces" in
  let builder := builder ++ formatField changes "Среднее время" (AvgServiceTime q) "avg_service_time" in
  let builder := builder ++ formatField changes "Последний билет" (LastTicket q) "last_ticket" in
  let builder := builder ++ formatField changes "Осталось билетов" (TicketsLeft q) "tickets_left" in
  let builder := builder ++ formatField changes "Статус очереди" (Status q) "status" in
  info ← ticketInfo q userTicket;
  let builder := builder ++ info in
  let builder :=
    builder ++ LF ++ "🔄 *Синхронизация:* " ++ Format_15_04_05 (LastUpdated q) in
  let builder :=
    if negb (IsZero (LastChanged q))
    then builder ++ LF ++ "⏰ *Изменение:* " ++ Format_15_04_05 (LastChanged q)
    else builder in
  ret builder.

(** FormatTelegramMessage formats queue data for Telegram message. *)
Definition FormatTelegramMessage (q : QueueData)
    (changes : option QueueChanges) : go string :=
  FormatTelegramMessageWithTicket q changes "".

(** ** The collaborators' answers *)

(** What SQLite and the Telegram API answer during one cycle.  A chat
    occurs once in the [users] table ([chat_id] is UNIQUE), so the
    answers are keyed by the chat. *)
Record Env : Type := mkEnv {
  dbSaveOk : bool;                   (* INSERT INTO queue_history succeeds *)
  dbListOk : bool;                   (* SELECT ... FROM users succeeds *)
  dbDeactivateOk : Z -> bool;        (* UPDATE users ... WHERE chat_id = ? succeeds *)
  apiEditOk : Z -> Z -> string -> bool;  (* editMessageText chat message text succeeds *)
  apiSend : Z -> string -> option Z  (* sendMessage chat text: the MessageID, or an error *)
}.

(** ** Package database (sqlite.go) *)

(** A row of the table [users]. *)
Record UserRow : Type := mkUserRow {
  row_id : Z;
  row_chat_id : Z;
  row_username : option string;
  row_joined_at : Time;
  row_active : bool
}.

(** User represents a Telegram user in the database. *)
Record User : Type := mkUser {
  ID : Z;
  ChatID : Z;
  Username : string;
  JoinedAt : Time;
  Active : bool
}.

(** The tables: [users], and the JSON documents of [queue_history] in
    insertion order ([None] is the document [null]). *)
Record Database : Type := mkDatabase {
  users : list UserRow;
  queue_history : list (option QueueData)
}.

(** The scan of one row in [GetActiveUsers]: a NULL username is left as
    the empty string. *)
Definition scanUser (r : UserRow) : User :=
  mkUser (row_id r) (row_chat_id r) (default "" (row_username r))
    (row_joined_at r) (row_active r).

(** GetActiveUsers returns all active users. *)
Definition GetActiveUsers (env : Env) (d : Database) : list User * option error :=
  if dbListOk env
  then (scanUser <$> filter (fun r => row_active r = true) (users d), None)
  else ([], Some (errWrap "failed to query users" (errorString "sql")))%list.

(** The statement [UPDATE users SET active = 0 WHERE chat_id = ?]. *)
Definition deactivateRow (chatID : Z) (r : UserRow) : UserRow :=
  if decide (row_chat_id r = chatID)
  then mkUserRow (row_id r) (row_chat_id r) (row_username r) (row_joined_at r) false
  else r.

(** DeactivateUser marks a user as inactive. *)
Definition DeactivateUser (env : Env) (chatID : Z) (d : Database)
  : Database * option error :=
  if dbDeactivateOk env chatID
  then (mkDatabase (deactivateRow chatID <$> users d) (queue_history d), None)
  else (d, Some (errWrap "failed to deactivate user" (errorString "sql"))).

(** SaveQueueHistory saves queue data to history. *)
Definition SaveQueueHistory (env : Env) (h : gmap loc QueueData)
    (queueData : ptr) (d : Database) : go (Database * option error) :=
  jsonData ← match queueData with
             | None => ret None
             | Some _ => q ← deref h queueData; ret (Some q)
             end;
  if dbSaveOk env
  then ret (mkDatabase (users d) (queue_history d ++ [jsonData])%list, None)
  else ret (d, Some (errWrap "failed to save queue history" (errorString "sql"))).

(** ** Package bot (telegram_bot.go) *)

(** The state of a TelegramBot: [userMsgs] stores chat_id -> message_id.
    Every value stored in the [sync.Map] is an [int], so the type
    assertion made on reading it always holds. *)
Record TelegramBot : Type := mkTelegramBot {
  userMsgs : gmap Z Z
}.

(** sendMessage sends a message to a chat and returns message ID, 0 when
    the API call fails. *)
Definition sendMessage (env : Env) (chatID : Z) (text : string) : Z :=
  match apiSend env chatID text with
  | Some MessageID => MessageID
  | None => 0
  end.

(** updateMessage updates an existing message. *)
Definition updateMessage (env : Env) (chatID messageID : Z) (text : string)
  : option error :=
  if apiEditOk env chatID messageID text then None
  else Some (errorString "telegram").

(** The part of the loop body of BroadcastQueueUpdate after the attempt
    to update: send a new message, store its ID, or deactivate the user. *)
Definition sendNew (env : Env) (message : string) (user : User)
    (st : TelegramBot * Database) : TelegramBot * Database :=
  let '(b, d) := st in
  let msgID := sendMessage env (ChatID user) message in
  if decide (msgID ≠ 0)
  then (mkTelegramBot (<[ChatID user := msgID]> (userMsgs b)), d)
  else (b, fst (DeactivateUser env (ChatID user) d)).

(** The loop body of BroadcastQueueUpdate for one user. *)
Definition notifyUser (env : Env) (message : string)
    (st : TelegramBot * Database) (user : User) : TelegramBot * Database :=
  let '(b, d) := st in
  match userMsgs b !! ChatID user with
  | Some msgID =>
    match updateMessage env (ChatID user) msgID message with
    | None => st                                          (* continue *)
    | Some _ =>
      sendNew env message user
        (mkTelegramBot (delete (ChatID user) (userMsgs b)), d)
    end
  | None => sendNew env message user st
  end.

(** BroadcastQueueUpdate sends queue updates to all active users. *)
Definition BroadcastQueueUpdate (env : Env) (h : gmap loc QueueData)
    (queueData : ptr) (changes : option QueueChanges)
    (st : TelegramBot * Database)
  : go (TelegramBot * Database * option error) :=
  match GetActiveUsers env (snd st) with
  | (_, Some err) => ret (st, Some (errWrap "failed to get active users" err))
  | (activeUsers, None) =>
    if decide (length activeUsers = 0%nat) then ret (st, None)
    else
      q ← deref h queueData;
      message ← FormatTelegramMessage q changes;
      ret (foldl (notifyUser env message) st activeUsers, None)
  end.

(** ** The engine (cmd/main.go) *)

(** Application represents the main application.  [lastChanges] points to
    a QueueChanges that is never written after CompareQueues returned it,
    so the record itself stands for the pointer. *)
Record Application : Type := mkApplication {
  db : Database;
  bot : TelegramBot;
  lastData : ptr;
  lastChanged : Time;
  lastChanges : option QueueChanges
}.

(** [newData.LastChanged = t] through the pointer. *)
Definition storeLastChanged (h : gmap loc QueueData) (p : ptr) (t : Time)
  : go (gmap loc QueueData) :=
  q ← deref h p;
  match p with
  | Some l => ret (<[l := setLastChanged t q]> h)
  | None => panic
  end.

(** The Application built by [main]: no snapshot yet, [lastChanged] set
    to the time of the start. *)
Definition newApplication (d : Database) (b : TelegramBot) (now : Time)
  : Application :=
  mkApplication d b None now None.

(** The first half of processQueueUpdate: the snapshot is saved and
    compared, [lastChanged] and [lastChanges] are updated and written to
    [newData.LastChanged], and [changesToShow] is chosen.  [now] is what
    [time.Now()] returns during the call. *)
Definition detectChanges (env : Env) (now : Time)
    (h : gmap loc QueueData) (app : Application) (newData : ptr)
  : go (gmap loc QueueData * Application * option QueueChanges) :=
  (* Save to database *)
  '(d, _) ← SaveQueueHistory env h newData (db app);
  (* Compare with previous data *)
  changes ← CompareQueues h (lastData app) newData;
  '(h, lastChanged', lastChanges') ←
    match lastData app with
    | None =>
      (* First run - set initial change time *)
      h ← storeLastChanged h newData now;
      ret (h, now, None)
    | Some _ =>
      if HasChanges changes then
        (* Data changed - update change time and store changes *)
        h ← storeLastChanged h newData now;
        ret (h, now, Some changes)
      else
        (* No changes - keep previous change time and previous changes *)
        h ← storeLastChanged h newData (lastChanged app);
        ret (h, lastChanged app, lastChanges app)
    end;
  (* Use stored changes to keep showing the markers until next change *)
  let changesToShow :=
    if HasChanges changes then Some changes else lastChanges' in
  ret (h, mkApplication d (bot app) (lastData app) lastChanged' lastChanges',
       changesToShow).

(** processQueueUpdate processes new queue data and sends notifications if
    needed. *)
Definition processQueueUpdate (env : Env) (now : Time)
    (h : gmap loc QueueData) (app : Application) (newData : ptr)
  : go (gmap loc QueueData * Application) :=
  '(h, app, changesToShow) ← detectChanges env now h app newData;
  (* Send notifications to users (always update to show sync time) *)
  '(b, d, _) ← BroadcastQueueUpdate env h newData changesToShow (bot app, db app);
  (* Update last data *)
  '(copy, h) ← Clone h newData;
  (* Log statistics: GetStats only reads the user count and the handles *)
  ret (h, mkApplication d b copy (lastChanged app) (lastChanges app)).

(** One poll of the monitoring loop that reaches processQueueUpdate: the
    answers of the collaborators, the clock, and the fetched snapshot. *)
Record Poll : Type := mkPoll {
  poll_env : Env;
  poll_now : Time;
  poll_data : QueueData
}.

(** Modelled from the spec: the parser (internal/parser, with its
    ValidateQueueData) is not among the sources.  The spec has every
    snapshot handed across a component boundary be a copy of its own, so
    a snapshot that was fetched without error and passed validation
    reaches the callback of startQueueMonitoring as a new object, which
    the callback hands to processQueueUpdate. *)
Definition onSnapshot (p : Poll) (s : gmap loc QueueData * Application)
  : go (gmap loc QueueData * Application) :=
  let l := fresh (dom (fst s)) in
  processQueueUpdate (poll_env p) (poll_now p) (<[l := poll_data p]> (fst s))
    (snd s) (Some l).

(** A sequence of accepted snapshots, processed one after the other. *)
Fixpoint run (polls : list Poll) (s : gmap loc QueueData * Application)
  : go (gmap loc QueueData * Application) :=
  match polls with
  | [] => ret s
  | p :: polls' => s' ← onSnapshot p s; run polls' s'
  end%list.

(** ** Vocabulary of the properties *)

(** The line of the message that tells a subscriber that the turn has come. *)
Definition yourTurnLine (userTicket : string) : string :=
  LF ++ "🎫 *Ваш билет " ++ escapeMarkdown userTicket ++ " \- ваша очередь\!*".

(** The fields of a snapshot, named as the struct names them. *)
Inductive Field : Type :=
| FName | FServedClients | FWaitingClients | FWorkplaces | FAvgServiceTime
| FAvgWaitTime | FLastTicket | FTicketsLeft | FStatus | FLastUpdated
| FLastChanged.

(** The key of a field: its JSON tag, which is also the key that
    CompareQueues writes to [ChangedFields]. *)
Definition fieldKey (f : Field) : string :=
  match f with
  | FName => "name"
  | FServedClients => "served_clients"
  | FWaitingClients => "waiting_clients"
  | FWorkplaces => "workplaces"
  | FAvgServiceTime => "avg_service_time"
  | FAvgWaitTime => "avg_wait_time"
  | FLastTicket => "last_ticket"
  | FTicketsLeft => "tickets_left"
  | FStatus => "status"
  | FLastUpdated => "last_updated"
  | FLastChanged => "last_changed"
  end.

(** The field differs between the two snapshots. *)
Definition differs (f : Field) (p c : QueueData) : Prop :=
  match f with
  | FName => Name p ≠ Name c
  | FServedClients => ServedClients p ≠ ServedClients c
  | FWaitingClients => WaitingClients p ≠ WaitingClients c
  | FWorkplaces => Workplaces p ≠ Workplaces c
  | FAvgServiceTime => AvgServiceTime p ≠ AvgServiceTime c
  | FAvgWaitTime => AvgWaitTime p ≠ AvgWaitTime c
  | FLastTicket => LastTicket p ≠ LastTicket c
  | FTicketsLeft => TicketsLeft p ≠ TicketsLeft c
  | FStatus => Status p ≠ Status c
  | FLastUpdated => LastUpdated p ≠ LastUpdated c
  | FLastChanged => LastChanged p ≠ LastChanged c
  end.

(** The two average-time fields. *)
Definition averageTime (f : Field) : bool :=
  match f with
  | FAvgServiceTime | FAvgWaitTime => true
  | _ => false
  end.

(** The two timestamps of a snapshot. *)
Definition timestamp (f : Field) : bool :=
  match f with
  | FLastUpdated | FLastChanged => true
  | _ => false
  end.

(** The fields that CompareQueues looks at. *)
Definition compared (f : Field) : bool :=
  negb (averageTime f) && negb (timestamp f).

(** The comparator as the specification words it: every field but the two
    average times is flagged exactly when it differs, and any such
    difference sets [HasChanges]. *)
Definition flags_all_but_average_times : Prop :=
  forall (h : gmap loc QueueData) (pl cl : loc) (P C : QueueData)
         (ch : QueueChanges),
    h !! pl = Some P -> h !! cl = Some C ->
    CompareQueues h (Some pl) (Some cl) = ret ch ->
    (forall f : Field, averageTime f = false ->
       (index (ChangedFields ch) (fieldKey f) = true <-> differs f P C))
    /\ (HasChanges ch = true <->
        exists f : Field, averageTime f = false /\ differs f P C).

(** Two snapshots that differ in the time of the fetch only. *)
Definition snapshotMorning : QueueData :=
  mkQueueData "odbior" "10" "5" "3" "6 min." "20 min." "K065" "7" "open"
    (mkTime 1000 0) zeroTime.
Definition snapshotLater : QueueData :=
  mkQueueData "odbior" "10" "5" "3" "6 min." "20 min." "K065" "7" "open"
    (mkTime 2000 0) zeroTime.
Definition twoSnapshots : gmap loc QueueData :=
  <[2%positive := snapshotLater]> (<[1%positive := snapshotMorning]> ∅).

(** No row of the chat is active. *)
Definition inactive (chatID : Z) (d : Database) : Prop :=
  forall r : UserRow, r ∈ users d -> row_chat_id r = chatID -> row_active r = false.


(** The chat is deactivated and has no handle. *)
Definition retired (chatID : Z) (st : TelegramBot * Database) : Prop :=
  inactive chatID (snd st) /\ userMsgs (fst st) !! chatID = None.

(** The rows of the chat that [d0] holds are still in the table. *)
Definition rowsKept (chatID : Z) (d0 : Database) (st : TelegramBot * Database)
  : Prop :=
  forall r : UserRow,
    r ∈ users d0 -> row_chat_id r = chatID -> r ∈ users (snd st).

(** A cycle used to exercise the broadcast: two active chats, 7 and 8,
    each with a stored handle; no message can be updated, nothing can be
    sent to chat 7, and a message sent to another chat gets the ID 100. *)
Definition envSample : Env :=
  mkEnv true true (fun _ => true) (fun _ _ _ => false)
    (fun chatID _ => if chatID =? 7 then None else Some 100).
Definition dbSample : Database :=
  mkDatabase
    [mkUserRow 1 7 (Some "anna") zeroTime true;
     mkUserRow 2 8 None zeroTime true]%list
    []%list.
Definition botSample : TelegramBot :=
  mkTelegramBot (<[8 := 55]> (<[7 := 54]> ∅)).
Definition messageSample : string :=
  match FormatTelegramMessage snapshotLater None with
  | ret message => message
  | panic => ""
  end.

(** The pointer of the engine to its last snapshot is valid. *)
Definition wf (h : gmap loc QueueData) (app : Application) : Prop :=
  forall l : loc, lastData app = Some l -> is_Some (h !! l).

(** What processQueueUpdate leaves in [lastChanged] and [lastChanges]
    after a comparison that returned [changes]. *)
Definition nextSticky (now : Time) (app : Application) (changes : QueueChanges)
  : Time * option QueueChanges :=
  match lastData app with
  | None => (now, None)
  | Some _ =>
    if HasChanges changes then (now, Some changes)
    else (lastChanged app, lastChanges app)
  end.




(** A cycle in which every collaborator fails. *)
Definition envFailing : Env :=
  mkEnv false false (fun _ => false) (fun _ _ _ => false) (fun _ _ => None).

(** An engine that already holds the first of the two snapshots. *)
Definition appSample : Application :=
  mkApplication dbSample botSample (Some 1%positive) (mkTime 500 0) None.

(** Three polls: the first snapshot, a poll without change, a new ticket. *)
Definition pollFirst : Poll := mkPoll envSample (mkTime 1000 0) snapshotMorning.
Definition pollSame : Poll := mkPoll envFailing (mkTime 2000 0) snapshotLater.
Definition pollNext : Poll :=
  mkPoll envSample (mkTime 3000 0)
    (mkQueueData "odbior" "11" "4" "3" "6 min." "20 min." "K066" "6" "open"
       (mkTime 3000 0) zeroTime).

(** ** Vocabulary of the further properties *)

(** The digits of a string, in order. *)
Fixpoint digitsOf (s : string) : string :=
  match s with
  | EmptyString => EmptyString
  | String c s' => if isDigit c then String c (digitsOf s') else digitsOf s'
  end.

(** No character of the string is a digit. *)
Definition noDigit (s : string) : Prop := digitsOf s = "".

(** The string is empty or starts with a character that is no digit. *)
Definition stopsRun (s : string) : Prop :=
  match s with
  | EmptyString => True
  | String c _ => isDigit c = false
  end.

(** The change-set that CompareQueues builds from the outcome of its seven
    tests, in the order of the source. *)
Definition flagsOf (name served waiting workplaces ticket left status : bool)
    (previous current : ptr) : QueueChanges :=
  let changes := mkQueueChanges false ∅ previous current in
  let changes := if name then mark "name" changes else changes in
  let changes := if served then mark "served_clients" changes else changes in
  let changes := if waiting then mark "waiting_clients" changes else changes in
  let changes := if workplaces then mark "workplaces" changes else changes in
  let changes := if ticket then mark "last_ticket" changes else changes in
  let changes := if left then mark "tickets_left" changes else changes in
  if status then mark "status" changes else changes.

(** The two snapshots agree on the seven compared fields. *)
Definition sameTracked (p c : QueueData) : Prop :=
  Name p = Name c /\ ServedClients p = ServedClients c
  /\ WaitingClients p = WaitingClients c /\ Workplaces p = Workplaces c
  /\ LastTicket p = LastTicket c /\ TicketsLeft p = TicketsLeft c
  /\ Status p = Status c.

(** The two snapshots agree on the compared fields that the message shows
    (all of them but the name). *)
Definition sameShown (p c : QueueData) : Prop :=
  ServedClients p = ServedClients c
  /\ WaitingClients p = WaitingClients c /\ Workplaces p = Workplaces c
  /\ LastTicket p = LastTicket c /\ TicketsLeft p = TicketsLeft c
  /\ Status p = Status c.

(** The first sample snapshot under another queue name. *)
Definition snapshotRenamed : QueueData :=
  mkQueueData "odbior karty" "10" "5" "3" "6 min." "20 min." "K065" "7" "open"
    (mkTime 2000 0) zeroTime.
Definition renamedSnapshots : gmap loc QueueData :=
  <[2%positive := snapshotRenamed]> (<[1%positive := snapshotMorning]> ∅).

(** ** More of package database *)

(** AddUser adds a new user to the database or updates existing user:
    the statement [INSERT OR REPLACE INTO users (chat_id, username,
    joined_at, active) VALUES (?, ?, COALESCE((SELECT joined_at FROM users
    WHERE chat_id = ?), CURRENT_TIMESTAMP), 1)].  [ok] tells whether
    SQLite carries the statement out, [rowid] is the id it gives to the
    new row (the column is AUTOINCREMENT) and [now] its CURRENT_TIMESTAMP.
    The value of [joined_at] is computed first; REPLACE then deletes the
    rows in conflict with the new one ([chat_id] is UNIQUE, [id] the
    primary key) and the new row is inserted. *)
Definition AddUser (ok : bool) (rowid : Z) (now : Time) (chatID : Z)
    (username : string) (d : Database) : Database * option error :=
  if ok then
    let joined :=
      match filter (fun r => row_chat_id r = chatID) (users d) with
      | r :: _ => row_joined_at r
      | [] => now
      end%list in
    let kept :=
      filter (fun r => row_chat_id r ≠ chatID ∧ row_id r ≠ rowid) (users d) in
    (mkDatabase (kept ++ [mkUserRow rowid chatID (Some username) joined true])%list
       (queue_history d), None)
  else (d, Some (errWrap "failed to add user" (errorString "sql"))).

(** GetUserCount returns the total number of active users; [ok] tells
    whether the query succeeds. *)
Definition GetUserCount (ok : bool) (d : Database) : Z * option error :=
  if ok
  then (Z.of_nat (length (filter (fun r => row_active r = true) (users d))), None)
  else (0, Some (errWrap "failed to get user count" (errorString "sql"))).

(** No two rows of [users] have the same [chat_id]. *)
Definition uniqueChats (d : Database) : Prop :=
  NoDup (row_chat_id <$> users d).

(** The chat has no row in [users]. *)
Definition unknownChat (chatID : Z) (d : Database) : Prop :=
  forall r : UserRow, r ∈ users d -> row_chat_id r <> chatID.

(** ** More of package bot *)

(** The fixed texts that the bot sends. *)
Definition registrationFailedText : string :=
  "Произошла ошибка при регистрации. Попробуйте позже.".
Definition welcomeLaterText : string :=
  "Добро пожаловать! Данные о очереди будут доступны после первого обновления.".
Definition welcomeNoDataText : string :=
  "Добро пожаловать! Данные о очереди пока недоступны. Ожидайте первого обновления.".
Definition useStartText : string :=
  "Используйте команду /start для получения информации о очереди.".

(** handleStartCommand handles the /start command.  [addOk], [rowid] and
    [now] are the answers of SQLite to AddUser, and [latest] is what
    GetLatestQueueData returns (a snapshot, nothing, or an error).  Beside
    the state, the result lists the calls of sendMessage in order, each
    with its chat and text. *)
Definition handleStartCommand (env : Env) (addOk : bool) (rowid : Z)
    (now : Time) (latest : option QueueData * option error)
    (chatID : Z) (username : string) (st : TelegramBot * Database)
  : go (TelegramBot * Database * list (Z * string)) :=
  let '(b, d) := st in
  (* Add user to database *)
  match AddUser addOk rowid now chatID username d with
  | (_, Some _) => ret (b, d, [(chatID, registrationFailedText)])
  | (d, None) =>
    (* Get latest queue data *)
    match latest with
    | (_, Some _) => ret (b, d, [(chatID, welcomeLaterText)])
    | (None, None) => ret (b, d, [(chatID, welcomeNoDataText)])
    | (Some queueData, None) =>
      (* Send current queue data *)
      message ← FormatTelegramMessage queueData None;
      let msgID := sendMessage env chatID message in
      (* Store message ID for future updates *)
      if decide (msgID ≠ 0)
      then ret (mkTelegramBot (<[chatID := msgID]> (userMsgs b)), d,
                [(chatID, message)])
      else ret (b, d, [(chatID, message)])
    end
  end%list.

(** handleMessage processes incoming messages.  [from] is the username of
    [message.From] ([None] when the message has no sender), [command]
    what [message.Command()] returns and [text] the text of the
    message. *)
Definition handleMessage (env : Env) (addOk : bool) (rowid : Z) (now : Time)
    (latest : option QueueData * option error)
    (chatID : Z) (from : option string) (command text : string)
    (st : TelegramBot * Database)
  : go (TelegramBot * Database * list (Z * string)) :=
  username ← match from with Some name => ret name | None => panic end;
  if decide (command = "start")
  then handleStartCommand env addOk rowid now latest chatID username st
  else if decide (text ≠ "")
       then ret (st, [(chatID, useStartText)])
       else ret (st, [])%list.

(** getStoredMessageCount returns the number of stored message IDs. *)
Definition getStoredMessageCount (b : TelegramBot) : Z :=
  Z.of_nat (size (userMsgs b)).

(** The map that GetStats returns. *)
Record Stats : Type := mkStats {
  active_users : Z;
  stored_messages : Z;
  bot_username : string
}.

(** GetStats returns bot statistics; [countOk] tells whether the count of
    the users succeeds and [self] is the username of the bot. *)
Definition GetStats (countOk : bool) (self : string)
    (st : TelegramBot * Database) : option Stats * option error :=
  match GetUserCount countOk (snd st) with
  | (_, Some err) => (None, Some (errWrap "failed to get user count" err))
  | (userCount, None) =>
    (Some (mkStats userCount (getStoredMessageCount (fst st)) self), None)
  end.

(** No stored handle is 0. *)
Definition handlesNonZero (b : TelegramBot) : Prop :=
  forall chatID msgID : Z, userMsgs b !! chatID = Some msgID -> msgID <> 0.

(** Every chat with a stored handle has an active row. *)
Definition handlesActive (st : TelegramBot * Database) : Prop :=
  forall chatID msgID : Z,
    userMsgs (fst st) !! chatID = Some msgID ->
    exists r : UserRow,
      r ∈ users (snd st) /\ row_chat_id r = chatID /\ row_active r = true.

(** The row [r'] is the row [r], possibly deactivated. *)
Definition sameOrDeactivated (r r' : UserRow) : Prop :=
  r' = r \/ r' = deactivateRow (row_chat_id r) r.

(** During a broadcast of [message] to users listed from [d0]: the rows
    of every chat to which the message can be sent are still those of
    [d0]. *)
Definition reachableKept (env : Env) (message : string) (d0 : Database)
    (st : TelegramBot * Database) : Prop :=
  forall chatID : Z,
    sendMessage env chatID message <> 0 -> rowsKept chatID d0 st.

(** No row of the table is active. *)
Definition inactiveAll (d : Database) : Prop :=
  forall r : UserRow, r ∈ users d -> row_active r = false.

(** Whether every reserved character of MarkdownV2 other than [*], which
    the messages use for bold text, stands right after a backslash;
    [escaped] tells whether the character before the string is a
    backslash. *)
Fixpoint safeMarkdown (escaped : bool) (s : string) : bool :=
  match s with
  | EmptyString => true
  | String c s' =>
    if needsEscape c && negb (Ascii.eqb c "*")
    then escaped && safeMarkdown false s'
    else safeMarkdown (Ascii.eqb c "\") s'
  end.

(** No character of the string is in the MarkdownV2 list. *)
Fixpoint plainText (s : string) : bool :=
  match s with
  | EmptyString => true
  | String c s' => negb (needsEscape c) && plainText s'
  end.

(** * Properties *)

(** ** Integers and digit strings *)

Lemma wrap64_small (z : Z) :
  MinInt64 <= z <= MaxInt64 -> wrap64 z = z.
Proof.
  unfold MinInt64, MaxInt64, wrap64. intros Hz.
  rewrite Z.mod_small; lia.
Qed.

Lemma isDigit_not_sign (c : ascii) :
  isDigit c = true -> Ascii.eqb c "-" = false /\ Ascii.eqb c "+" = false.
Proof.
  intros Hc. split.
  - destruct (Ascii.eqb_spec c "-") as [->|]; [discriminate Hc | reflexivity].
  - destruct (Ascii.eqb_spec c "+") as [->|]; [discriminate Hc | reflexivity].
Qed.

Lemma digitVal_range (c : ascii) : isDigit c = true -> 0 <= digitVal c <= 9.
Proof.
  unfold isDigit, digitVal. cbv zeta.
  rewrite andb_true_iff, !Z.leb_le. lia.
Qed.

Lemma decimal_nonneg (s : string) : forall acc,
  allDigits s = true -> 0 <= acc -> 0 <= decimal acc s.
Proof.
  induction s as [|c s IH]; intros acc Hs Hacc; simpl in *; [assumption|].
  apply andb_true_iff in Hs as [Hc Hs].
  apply IH; [assumption|]. pose proof (digitVal_range c Hc). lia.
Qed.

(** On a non-empty string of digits [Atoi] is the decimal value, or a
    range error. *)
Lemma Atoi_digits (s : string) :
  allDigits s = true -> s <> "" ->
  Atoi s = if decimal 0 s <=? MaxInt64 then (decimal 0 s, None)
           else (MaxInt64, Some (errRange s)).
Proof.
  intros Hs Hne. destruct s as [|c s]; [congruence|].
  unfold Atoi. simpl in Hs. pose proof Hs as Hs'.
  apply andb_true_iff in Hs' as [Hc _].
  destruct (isDigit_not_sign c Hc) as [-> ->].
  cbn [allDigits]. rewrite Hs. reflexivity.
Qed.

Lemma Atoi_digits_ok (s : string) (n : Z) :
  allDigits s = true -> s <> "" -> Atoi s = (n, None) ->
  0 <= n <= MaxInt64.
Proof.
  intros Hs Hne H. rewrite (Atoi_digits s Hs Hne) in H.
  destruct (Z.leb_spec (decimal 0 s) MaxInt64) as [Hle|]; [|discriminate].
  injection H as <-. split; [|assumption].
  apply decimal_nonneg; [assumption | lia].
Qed.

Lemma allDigits_app (s t : string) :
  allDigits (s ++ t) = allDigits s && allDigits t.
Proof.
  induction s as [|c s IH]; simpl; [reflexivity|].
  rewrite IH. apply andb_assoc.
Qed.

Lemma collectDigits_allDigits (s : string) : forall numStr,
  allDigits numStr = true -> allDigits (collectDigits numStr s) = true.
Proof.
  induction s as [|c s IH]; intros numStr Hn; simpl; [assumption|].
  destruct (isDigit c) eqn:Hc; apply IH; [|assumption].
  rewrite allDigits_app, Hn. simpl. rewrite Hc. reflexivity.
Qed.

Lemma firstDigitRun_allDigits (s : string) : forall numStr,
  allDigits numStr = true -> allDigits (firstDigitRun numStr s) = true.
Proof.
  induction s as [|c s IH]; intros numStr Hn; simpl; [assumption|].
  destruct (isDigit c) eqn:Hc.
  - apply IH. rewrite allDigits_app, Hn. simpl. rewrite Hc. reflexivity.
  - destruct (decide (numStr ≠ "")); [assumption | apply IH; assumption].
Qed.

(** A number that one of the three parsers returns without error is a
    non-negative [int]. *)
Lemma extractTicketNumber_range (ticket : string) (n : Z) :
  extractTicketNumber ticket = (n, None) -> 0 <= n <= MaxInt64.
Proof.
  unfold extractTicketNumber. cbv zeta.
  destruct (decide (collectDigits "" ticket = "")) as [|Hne]; [discriminate|].
  apply Atoi_digits_ok; [|assumption].
  apply collectDigits_allDigits. reflexivity.
Qed.

Lemma parseServiceTime_range (s : string) (n : Z) :
  parseServiceTime s = (n, None) -> 0 <= n <= MaxInt64.
Proof.
  unfold parseServiceTime. cbv zeta.
  destruct (decide (firstDigitRun "" s = "")) as [|Hne]; [discriminate|].
  apply Atoi_digits_ok; [|assumption].
  apply firstDigitRun_allDigits. reflexivity.
Qed.

Lemma parseWorkplaces_range (s : string) (n : Z) :
  parseWorkplaces s = (n, None) -> 0 <= n <= MaxInt64.
Proof.
  unfold parseWorkplaces. cbv zeta.
  destruct (decide (firstDigitRun "" s = "")) as [|Hne]; [discriminate|].
  apply Atoi_digits_ok; [|assumption].
  apply firstDigitRun_allDigits. reflexivity.
Qed.

(** A ticket with at least one digit, whose digits read as a number that
    fits in an [int], yields that number. *)
Lemma extractTicketNumber_digits (ticket : string) :
  collectDigits "" ticket <> "" ->
  decimal 0 (collectDigits "" ticket) <= MaxInt64 ->
  extractTicketNumber ticket = (decimal 0 (collectDigits "" ticket), None).
Proof.
  intros Hne Hfit. unfold extractTicketNumber. cbv zeta.
  destruct (decide (collectDigits "" ticket = "")); [contradiction|].
  rewrite Atoi_digits by (try apply collectDigits_allDigits; trivial).
  destruct (Z.leb_spec (decimal 0 (collectDigits "" ticket)) MaxInt64);
    [reflexivity | lia].
Qed.

Lemma extractTicketNumber_nonempty (ticket : string) (n : Z) :
  extractTicketNumber ticket = (n, None) -> ticket <> "".
Proof. intros H ->. discriminate H. Qed.

Lemma int_sub_tickets (a b : Z) :
  0 <= a <= MaxInt64 -> 0 <= b <= MaxInt64 -> int_sub a b = a - b.
Proof.
  intros Ha Hb. unfold int_sub. apply wrap64_small.
  unfold MinInt64, MaxInt64 in *. lia.
Qed.

(** ** The wait-time estimate *)

(** C3: with user ticket K222, last ticket K065, average service time
    "6 min." and "3" workplaces, whatever the other fields of the
    snapshot, the estimate is 314 minutes and no error, that is
    floor((222-65)*6/3). *)
Theorem CalculateWaitTime_K222
    (name served waiting avgWait left status : string) (updated changed : Time) :
  CalculateWaitTime
    (mkQueueData name served waiting "3" "6 min." avgWait "K065" left status
       updated changed) "K222" = ret (314, None)
  /\ 314 = (222 - 65) * 6 / 3.
Proof. split; reflexivity. Qed.



(** The divisor of the estimate. *)
Lemma int_div_positive (a b : Z) : 1 <= b -> int_div a b = ret (wrap64 (Z.quot a b)).
Proof.
  intros Hb. unfold int_div.
  destruct (Z.eqb_spec b 0); [lia | reflexivity].
Qed.

Lemma CalculateWaitTime_no_panic (q : QueueData) (userTicket : string) :
  CalculateWaitTime q userTicket <> panic.
Proof.
  unfold CalculateWaitTime.
  destruct (decide _); [discriminate|].
  destruct (extractTicketNumber userTicket) as [userNum [e|]]; [discriminate|].
  destruct (extractTicketNumber (LastTicket q)) as [currentNum [e|]];
    [discriminate|].
  destruct (_ <=? 0); [discriminate|].
  destruct (parseServiceTime _) as [avg [e|]]; [discriminate|].
  destruct (parseWorkplaces _) as [wp [e|]]; [discriminate|].
  cbv zeta. rewrite int_div_positive; [discriminate|].
  destruct (Z.leb_spec wp 0); lia.
Qed.

(** C8: the estimator never divides by zero (no call panics), and when the
    parsed workplace count is zero or negative it is replaced by 1: with a
    positive ticket distance and metrics that parse, the result is the
    Go product [ticketsRemaining * avgServiceMinutes], which is the exact
    product whenever that fits in an [int]. *)
Theorem CalculateWaitTime_workplaces_clamped
    (q : QueueData) (userTicket : string) :
  CalculateWaitTime q userTicket <> panic
  /\ forall userNum currentNum avgServiceMinutes workplaces : Z,
      extractTicketNumber userTicket = (userNum, None) ->
      extractTicketNumber (LastTicket q) = (currentNum, None) ->
      currentNum < userNum ->
      parseServiceTime (AvgServiceTime q) = (avgServiceMinutes, None) ->
      parseWorkplaces (Workplaces q) = (workplaces, None) ->
      workplaces <= 0 ->
      CalculateWaitTime q userTicket
        = ret (int_mul (userNum - currentNum) avgServiceMinutes, None)
      /\ ((userNum - currentNum) * avgServiceMinutes <= MaxInt64 ->
          CalculateWaitTime q userTicket
            = ret ((userNum - currentNum) * avgServiceMinutes, None)).
Proof.
  split; [apply CalculateWaitTime_no_panic|].
  intros userNum currentNum avg wp Hu Hc Hlt Havg Hwp Hle.
  pose proof (extractTicketNumber_range _ _ Hu) as Ru.
  pose proof (extractTicketNumber_range _ _ Hc) as Rc.
  pose proof (parseServiceTime_range _ _ Havg) as Ra.
  assert (E : CalculateWaitTime q userTicket
              = ret (int_mul (userNum - currentNum) avg, None)).
  { unfold CalculateWaitTime.
    pose proof (extractTicketNumber_nonempty _ _ Hu).
    pose proof (extractTicketNumber_nonempty _ _ Hc).
    destruct (decide _) as [[?|?]|_]; [congruence | congruence |].
    rewrite Hu, Hc, int_sub_tickets by assumption.
    destruct (Z.leb_spec (userNum - currentNum) 0); [lia|].
    rewrite Havg, Hwp. cbv zeta.
    destruct (Z.leb_spec wp 0); [|lia].
    rewrite int_div_positive by lia. cbn.
    rewrite Z.quot_1_r. unfold int_mul.
    rewrite (wrap64_small (wrap64 _)); [reflexivity|].
    unfold wrap64, MinInt64, MaxInt64.
    pose proof (Z.mod_pos_bound ((userNum - currentNum) * avg + 2 ^ 63) (2 ^ 64)).
    lia. }
  split; [exact E|].
  intros Hfit. rewrite E. unfold int_mul. rewrite wrap64_small; [reflexivity|].
  unfold MinInt64, MaxInt64 in *. nia.
Qed.

Lemma CalculateWaitTime_workplaces_clamped_witness :
  CalculateWaitTime
    (mkQueueData "odbior" "10" "5" "0" "6 min." "20 min." "K065" "7" "open"
       zeroTime zeroTime) "K222" = ret (942, None).
Proof.
  apply (proj2 (CalculateWaitTime_workplaces_clamped
                  (mkQueueData "odbior" "10" "5" "0" "6 min." "20 min." "K065"
                     "7" "open" zeroTime zeroTime) "K222") 222 65 6 0);
    [reflexivity | reflexivity | lia | reflexivity | reflexivity | lia
    | vm_compute; discriminate].
Defined.

Lemma CalculateWaitTime_error_on_empty (q : QueueData) (r : Z) :
  CalculateWaitTime q "" <> ret (r, None).
Proof.
  unfold CalculateWaitTime.
  destruct (decide _) as [_|Hn]; [discriminate|].
  exfalso. apply Hn. left. reflexivity.
Qed.

Lemma ticketInfo_zero (q : QueueData) (userTicket : string) :
  CalculateWaitTime q userTicket = ret (0, None) ->
  ticketInfo q userTicket = ret (yourTurnLine userTicket).
Proof.
  intros H. unfold ticketInfo.
  destruct (decide (userTicket ≠ "")) as [_|Hn].
  - rewrite H. reflexivity.
  - exfalso. apply (CalculateWaitTime_error_on_empty q 0).
    destruct (decide (userTicket = "")) as [<-|]; [exact H | contradiction].
Qed.

Lemma string_app_assoc (a b c : string) : (a ++ b) ++ c = a ++ (b ++ c).
Proof.
  induction a as [|x a IH]; [reflexivity|].
  change (String x ((a ++ b) ++ c) = String x (a ++ (b ++ c))).
  now rewrite IH.
Qed.

(** C10: a ticket strictly above the last served one can get a zero-minute
    estimate with no error (distance 1, "1 min.", "3" workplaces), and
    every zero-minute, error-free estimate is rendered as the line that
    announces the subscriber's turn. *)
Theorem zero_minutes_before_turn :
  (exists (q : QueueData) (userTicket : string) (userNum currentNum : Z),
      extractTicketNumber userTicket = (userNum, None)
      /\ extractTicketNumber (LastTicket q) = (currentNum, None)
      /\ userNum - currentNum = 1
      /\ parseServiceTime (AvgServiceTime q) = (1, None)
      /\ parseWorkplaces (Workplaces q) = (3, None)
      /\ CalculateWaitTime q userTicket = ret (0, None))
  /\ (forall (q : QueueData) (changes : option QueueChanges) (userTicket : string),
        CalculateWaitTime q userTicket = ret (0, None) ->
        ticketInfo q userTicket = ret (yourTurnLine userTicket)
        /\ exists before after : string,
            FormatTelegramMessageWithTicket q changes userTicket
              = ret (before ++ yourTurnLine userTicket ++ after)).
Proof.
  split.
  - exists (mkQueueData "odbior" "10" "5" "3" "1 min." "20 min." "K065" "7"
              "open" zeroTime zeroTime), "K066", 66, 65.
    repeat split; reflexivity.
  - intros q changes userTicket H.
    pose proof (ticketInfo_zero q userTicket H) as Hinfo.
    split; [exact Hinfo|].
    unfold FormatTelegramMessageWithTicket. rewrite Hinfo. cbn [mbind go_bind bind].
    cbv zeta. destruct (negb (IsZero (LastChanged q))).
    + match goal with
      | |- context [ret (((?B ++ ?Y) ++ ?R1) ++ ?R2)] =>
        exists B, (R1 ++ R2);
        rewrite (string_app_assoc (B ++ Y) R1 R2), (string_app_assoc B Y (R1 ++ R2))
      end.
      reflexivity.
    + match goal with
      | |- context [ret ((?B ++ ?Y) ++ ?R1)] =>
        exists B, R1; rewrite (string_app_assoc B Y R1)
      end.
      reflexivity.
Qed.

Lemma zero_minutes_before_turn_witness :
  ticketInfo
    (mkQueueData "odbior" "10" "5" "3" "1 min." "20 min." "K065" "7" "open"
       zeroTime zeroTime) "K066" = ret (yourTurnLine "K066").
Proof.
  apply (proj2 zero_minutes_before_turn
           (mkQueueData "odbior" "10" "5" "3" "1 min." "20 min." "K065" "7"
              "open" zeroTime zeroTime) None "K066").
  reflexivity.
Defined.

(** ** The snapshot comparator *)

(** C9: compared with an absent previous snapshot, every current snapshot
    gives a change-set with [HasChanges] set and no changed field. *)
Theorem CompareQueues_first (h : gmap loc QueueData) (current : ptr) :
  exists changes : QueueChanges,
    CompareQueues h None current = ret changes
    /\ HasChanges changes = true
    /\ ChangedFields changes = ∅
    /\ (forall key : string, index (ChangedFields changes) key = false)
    /\ PreviousData changes = None
    /\ CurrentData changes = current.
Proof.
  eexists. split; [reflexivity|]. cbn. repeat split.
Qed.

Lemma CompareQueues_timestamps_only :
  CompareQueues twoSnapshots (Some 1%positive) (Some 2%positive)
    = ret (mkQueueChanges false ∅ (Some 1%positive) (Some 2%positive))
  /\ differs FLastUpdated snapshotMorning snapshotLater.
Proof. split; [reflexivity | discriminate]. Qed.

(** C2, as worded, fails: between two snapshots that differ in the time
    of the fetch only, the comparator reports no change. *)
Lemma CompareQueues_ignores_timestamps :
  CompareQueues twoSnapshots (Some 1%positive) (Some 2%positive)
    = ret (mkQueueChanges false ∅ (Some 1%positive) (Some 2%positive))
  /\ averageTime FLastUpdated = false
  /\ differs FLastUpdated snapshotMorning snapshotLater
  /\ ~ flags_all_but_average_times.
Proof.
  destruct CompareQueues_timestamps_only as [Hcmp Hd].
  split; [exact Hcmp | split; [reflexivity | split; [exact Hd|]]].
  intros Hc.
  destruct (Hc twoSnapshots 1%positive 2%positive snapshotMorning snapshotLater
              _ eq_refl eq_refl Hcmp) as [_ [_ Hex]].
  discriminate Hex. exists FLastUpdated. split; [reflexivity | exact Hd].
Qed.

(** C2, amended: for two snapshots that are present, a field is flagged
    exactly when it is one of the seven compared fields (every field but
    the two average times and the two timestamps) and differs between
    the snapshots, and [HasChanges] is set exactly when one of the seven
    differs. *)
Theorem CompareQueues_compared (h : gmap loc QueueData) (pl cl : loc)
    (P C : QueueData) :
  h !! pl = Some P -> h !! cl = Some C ->
  exists ch : QueueChanges,
    CompareQueues h (Some pl) (Some cl) = ret ch
    /\ (forall f : Field,
          index (ChangedFields ch) (fieldKey f) = true
          <-> compared f = true /\ differs f P C)
    /\ (HasChanges ch = true <->
        exists f : Field, compared f = true /\ differs f P C).
Proof.
  intros HP HC. unfold CompareQueues, deref. rewrite HP, HC.
  cbn [mbind go_bind bind]. eexists. split; [reflexivity|].
  destruct (decide (Name P ≠ Name C)) as [d1|d1];
  destruct (decide (ServedClients P ≠ ServedClients C)) as [d2|d2];
  destruct (decide (WaitingClients P ≠ WaitingClients C)) as [d3|d3];
  destruct (decide (Workplaces P ≠ Workplaces C)) as [d4|d4];
  destruct (decide (LastTicket P ≠ LastTicket C)) as [d5|d5];
  destruct (decide (TicketsLeft P ≠ TicketsLeft C)) as [d6|d6];
  destruct (decide (Status P ≠ Status C)) as [d7|d7];
  (split;
   [ intros f; destruct f; vm_compute; split;
     first [ intros [? ?]; first [discriminate | contradiction | reflexivity]
           | intros ?; first [discriminate | split; [reflexivity | assumption]] ]
   | vm_compute; split;
     [ first [ discriminate
             | intros _; first
                 [ exists FName; split; [reflexivity | assumption]
                 | exists FServedClients; split; [reflexivity | assumption]
                 | exists FWaitingClients; split; [reflexivity | assumption]
                 | exists FWorkplaces; split; [reflexivity | assumption]
                 | exists FLastTicket; split; [reflexivity | assumption]
                 | exists FTicketsLeft; split; [reflexivity | assumption]
                 | exists FStatus; split; [reflexivity | assumption] ] ]
     | first [ reflexivity
             | intros [f [Hf Hd]]; destruct f;
               first [discriminate Hf | contradiction] ] ] ]).
Qed.

Lemma CompareQueues_compared_witness :
  exists ch : QueueChanges,
    CompareQueues twoSnapshots (Some 1%positive) (Some 2%positive) = ret ch
    /\ (forall f : Field,
          index (ChangedFields ch) (fieldKey f) = true
          <-> compared f = true /\ differs f snapshotMorning snapshotLater)
    /\ (HasChanges ch = true <->
        exists f : Field,
          compared f = true /\ differs f snapshotMorning snapshotLater).
Proof.
  apply (CompareQueues_compared twoSnapshots 1%positive 2%positive
           snapshotMorning snapshotLater); reflexivity.
Defined.

(** ** The broadcast *)

Section Broadcast.

Variable env : Env.
Variable message : string.

(** The chat whose handle and rows are followed through the loop. *)
Variable c : Z.

Lemma DeactivateUser_inactive (d : Database) :
  dbDeactivateOk env c = true -> inactive c (fst (DeactivateUser env c d)).
Proof.
  intros Hok r. unfold DeactivateUser. rewrite Hok. cbn.
  intros Hr Hc. apply list_elem_of_fmap in Hr as [r0 [-> Hr0]].
  unfold deactivateRow in *.
  destruct (decide (row_chat_id r0 = c)); [reflexivity | contradiction].
Qed.


Lemma DeactivateUser_keeps (chatID : Z) (d : Database) (r : UserRow) :
  row_chat_id r <> chatID -> r ∈ users d ->
  r ∈ users (fst (DeactivateUser env chatID d)).
Proof.
  intros Hne Hr. unfold DeactivateUser.
  destruct (dbDeactivateOk env chatID); cbn; [|assumption].
  apply list_elem_of_fmap. exists r. split; [|assumption].
  unfold deactivateRow. destruct (decide _); [contradiction | reflexivity].
Qed.

(** *** One user of the loop *)

Lemma sendNew_handle_other (u : User) (b : TelegramBot) (d : Database) :
  ChatID u <> c ->
  userMsgs (fst (sendNew env message u (b, d))) !! c = userMsgs b !! c.
Proof.
  intros Hne. unfold sendNew.
  destruct (decide _); cbn; [|reflexivity].
  apply lookup_insert_ne. assumption.
Qed.

Lemma notifyUser_handle_other (u : User) (b : TelegramBot) (d : Database) :
  ChatID u <> c ->
  userMsgs (fst (notifyUser env message (b, d) u)) !! c = userMsgs b !! c.
Proof.
  intros Hne. unfold notifyUser.
  destruct (userMsgs b !! ChatID u) as [msgID|]; [|apply sendNew_handle_other; assumption].
  destruct (updateMessage env (ChatID u) msgID message); [|reflexivity].
  rewrite sendNew_handle_other by assumption. cbn.
  apply lookup_delete_ne. assumption.
Qed.



(** *** A chat to which nothing can be sent *)

Section FailedSend.

Hypothesis send_fails : sendMessage env c message = 0.
Hypothesis deactivate_ok : dbDeactivateOk env c = true.






End FailedSend.

(** *** A chat whose stale handle is replaced *)

Section FreshSend.

Variable fresh_id : Z.
Hypothesis send_ok : sendMessage env c message = fresh_id.
Hypothesis fresh_nonzero : fresh_id <> 0.

Lemma sendNew_rowsKept (d0 : Database) (u : User) (st : TelegramBot * Database) :
  rowsKept c d0 st -> rowsKept c d0 (sendNew env message u st).
Proof.
  intros Hk r Hr Hc. destruct st as [b d]. unfold sendNew.
  destruct (decide _) as [|Hz]; cbn; [apply Hk; assumption|].
  apply DeactivateUser_keeps; [|apply Hk; assumption].
  intros Heq. apply Hz. rewrite <- Heq, Hc, send_ok. assumption.
Qed.

Lemma notifyUser_rowsKept (d0 : Database) (u : User) (st : TelegramBot * Database) :
  rowsKept c d0 st -> rowsKept c d0 (notifyUser env message st u).
Proof.
  intros Hk. destruct st as [b d]. unfold notifyUser.
  destruct (userMsgs b !! ChatID u) as [msgID|];
    [|apply sendNew_rowsKept; assumption].
  destruct (updateMessage env (ChatID u) msgID message); [|assumption].
  apply sendNew_rowsKept. exact Hk.
Qed.

Lemma sendNew_records (u : User) (b : TelegramBot) (d : Database) :
  ChatID u = c ->
  sendNew env message u (b, d) = (mkTelegramBot (<[c := fresh_id]> (userMsgs b)), d).
Proof.
  intros Hu. unfold sendNew. rewrite Hu, send_ok.
  destruct (decide (fresh_id ≠ 0)); [reflexivity | contradiction].
Qed.

(** With a stale handle the loop body deletes it, sends a new message and
    stores the new handle; the table is not touched. *)
Lemma notifyUser_replaces (u : User) (b : TelegramBot) (d : Database) (stale : Z) :
  ChatID u = c -> userMsgs b !! c = Some stale ->
  updateMessage env c stale message <> None ->
  notifyUser env message (b, d) u
    = (mkTelegramBot (<[c := fresh_id]> (delete c (userMsgs b))), d).
Proof.
  intros Hu Hh Hup. unfold notifyUser. rewrite Hu, Hh.
  destruct (updateMessage env c stale message); [|contradiction].
  apply sendNew_records. assumption.
Qed.

Lemma notifyUser_fresh_stable (u : User) (st : TelegramBot * Database) :
  userMsgs (fst st) !! c = Some fresh_id ->
  userMsgs (fst (notifyUser env message st u)) !! c = Some fresh_id.
Proof.
  intros Hh. destruct st as [b d]. cbn in Hh.
  destruct (decide (ChatID u = c)) as [Hu|Hu].
  - unfold notifyUser. rewrite Hu, Hh.
    destruct (updateMessage env c fresh_id message); [|assumption].
    rewrite sendNew_records by assumption. cbn.
    apply lookup_insert_eq.
  - rewrite notifyUser_handle_other; assumption.
Qed.

Lemma foldl_fresh_stable (l : list User) : forall st : TelegramBot * Database,
  userMsgs (fst st) !! c = Some fresh_id ->
  userMsgs (fst (foldl (notifyUser env message) st l)) !! c = Some fresh_id.
Proof.
  induction l as [|u l IH]; intros st Hst; cbn; [assumption|].
  apply IH, notifyUser_fresh_stable. assumption.
Qed.

Lemma foldl_rowsKept (d0 : Database) (l : list User) :
  forall st : TelegramBot * Database,
    rowsKept c d0 st -> rowsKept c d0 (foldl (notifyUser env message) st l).
Proof.
  induction l as [|u l IH]; intros st Hst; cbn; [assumption|].
  apply IH, notifyUser_rowsKept. assumption.
Qed.

Lemma foldl_replaces (l : list User) :
  forall (st : TelegramBot * Database) (user : User) (stale : Z),
    user ∈ l -> ChatID user = c ->
    userMsgs (fst st) !! c = Some stale ->
    updateMessage env c stale message <> None ->
    userMsgs (fst (foldl (notifyUser env message) st l)) !! c = Some fresh_id.
Proof.
  induction l as [|u l IH]; intros st user stale Hin Hc Hh Hup;
    [inversion Hin|].
  cbn. destruct st as [b d]. cbn in Hh.
  destruct (decide (ChatID u = c)) as [Hu|Hu].
  - apply foldl_fresh_stable.
    rewrite (notifyUser_replaces u b d stale) by assumption. cbn.
    apply lookup_insert_eq.
  - apply elem_of_cons in Hin as [->|Hin]; [contradiction|].
    apply (IH _ user stale); [assumption | assumption | | assumption].
    rewrite notifyUser_handle_other; assumption.
Qed.

End FreshSend.

End Broadcast.

(** The renderer of the broadcast never panics. *)
Lemma FormatTelegramMessage_total (q : QueueData) (changes : option QueueChanges) :
  exists message : string, FormatTelegramMessage q changes = ret message.
Proof.
  unfold FormatTelegramMessage, FormatTelegramMessageWithTicket, ticketInfo.
  destruct (decide ("" ≠ "")) as [Hn|_]; [contradiction|].
  cbn [mbind go_bind bind]. cbv zeta.
  destruct (negb (IsZero (LastChanged q))); eexists; reflexivity.
Qed.

(** The listing of the active users leaves out a deactivated chat. *)
Lemma GetActiveUsers_inactive (env : Env) (d : Database) (chatID : Z) (u : User) :
  inactive chatID d -> u ∈ fst (GetActiveUsers env d) -> ChatID u <> chatID.
Proof.
  intros Hin Hu Hc. unfold GetActiveUsers in Hu.
  destruct (dbListOk env); cbn in Hu; [|inversion Hu].
  apply list_elem_of_fmap in Hu as [r [-> Hr]].
  apply list_elem_of_filter in Hr as [Hact Hr].
  cbn in Hc. rewrite (Hin r Hr Hc) in Hact. discriminate.
Qed.

Lemma GetActiveUsers_row (env : Env) (d : Database) (us : list User) (u : User) :
  GetActiveUsers env d = (us, None) -> u ∈ us ->
  exists r : UserRow,
    r ∈ users d /\ row_active r = true /\ u = scanUser r.
Proof.
  unfold GetActiveUsers. destruct (dbListOk env); [|discriminate].
  intros [= <-] Hu.
  apply list_elem_of_fmap in Hu as [r [-> Hr]].
  apply list_elem_of_filter in Hr as [Hact Hr].
  exists r. repeat split; assumption.
Qed.

(** What BroadcastQueueUpdate does once the users are listed and the
    message is rendered. *)
Lemma BroadcastQueueUpdate_loop (env : Env) (h : gmap loc QueueData)
    (queueData : ptr) (changes : option QueueChanges)
    (st : TelegramBot * Database) (us : list User) (user : User)
    (q : QueueData) (message : string) :
  GetActiveUsers env (snd st) = (us, None) -> user ∈ us ->
  deref h queueData = ret q ->
  FormatTelegramMessage q changes = ret message ->
  BroadcastQueueUpdate env h queueData changes st
    = ret (foldl (notifyUser env message) st us, None).
Proof.
  intros Hus Hin Hq Hm. unfold BroadcastQueueUpdate. rewrite Hus.
  destruct (decide (length us = 0%nat)) as [Hz|_].
  - destruct us; [inversion Hin | discriminate Hz].
  - rewrite Hq. cbn [mbind go_bind bind]. rewrite Hm. reflexivity.
Qed.



(** C5: in a cycle whose fan-out reaches the subscriber, when the
    subscriber has a stored handle, the update of that message fails and
    the send of a new message succeeds, the loop body for the subscriber
    deletes the stale handle and stores the new one without touching the
    table; after the cycle the stored handle is the one of the new
    message, the rows of the subscriber are unchanged, and the subscriber
    is still listed as active. *)
Theorem BroadcastQueueUpdate_stale_handle_replaced
    (env : Env) (h : gmap loc QueueData) (queueData : ptr)
    (changes : option QueueChanges) (b : TelegramBot) (d : Database)
    (us : list User) (user : User) (q : QueueData) (message : string)
    (stale fresh_id : Z) :
  GetActiveUsers env d = (us, None) -> user ∈ us ->
  deref h queueData = ret q ->
  FormatTelegramMessage q changes = ret message ->
  userMsgs b !! ChatID user = Some stale ->
  updateMessage env (ChatID user) stale message <> None ->
  sendMessage env (ChatID user) message = fresh_id ->
  fresh_id <> 0 ->
  notifyUser env message (b, d) user
    = (mkTelegramBot (<[ChatID user := fresh_id]> (delete (ChatID user) (userMsgs b))), d)
  /\ exists (b' : TelegramBot) (d' : Database),
      BroadcastQueueUpdate env h queueData changes (b, d) = ret (b', d', None)
      /\ userMsgs b' !! ChatID user = Some fresh_id
      /\ rowsKept (ChatID user) d (b', d')
      /\ forall env' : Env,
           dbListOk env' = true -> user ∈ fst (GetActiveUsers env' d').
Proof.
  intros Hus Hin Hq Hm Hh Hup Hsend Hnz.
  split; [apply (notifyUser_replaces env message (ChatID user) fresh_id Hsend Hnz
                   user b d stale eq_refl Hh Hup)|].
  pose proof (foldl_replaces env message (ChatID user) fresh_id Hsend Hnz us
                (b, d) user stale Hin eq_refl Hh Hup) as Hfresh.
  assert (Hkept : rowsKept (ChatID user) d (foldl (notifyUser env message) (b, d) us)).
  { apply (foldl_rowsKept env message (ChatID user) fresh_id Hsend Hnz).
    intros r Hr _. exact Hr. }
  destruct (foldl (notifyUser env message) (b, d) us) as [b' d'] eqn:Hf.
  exists b', d'. split.
  - rewrite (BroadcastQueueUpdate_loop env h queueData changes (b, d) us user
               q message Hus Hin Hq Hm), Hf. reflexivity.
  - split; [exact Hfresh|]. split; [exact Hkept|].
    intros env' Hok.
    destruct (GetActiveUsers_row env d us user Hus Hin) as [r [Hr [Hact ->]]].
    unfold GetActiveUsers. rewrite Hok. cbn.
    apply list_elem_of_fmap_2, list_elem_of_filter. split; [exact Hact|].
    apply (Hkept r Hr). reflexivity.
Qed.

Lemma BroadcastQueueUpdate_stale_handle_replaced_witness :
  exists (b' : TelegramBot) (d' : Database),
    BroadcastQueueUpdate envSample twoSnapshots (Some 2%positive) None
      (botSample, dbSample) = ret (b', d', None)
    /\ userMsgs b' !! 8 = Some 100
    /\ rowsKept 8 dbSample (b', d')
    /\ forall env' : Env,
         dbListOk env' = true ->
         mkUser 2 8 "" zeroTime true ∈ fst (GetActiveUsers env' d').
Proof.
  apply (BroadcastQueueUpdate_stale_handle_replaced envSample twoSnapshots
           (Some 2%positive) None botSample dbSample
           [mkUser 1 7 "anna" zeroTime true; mkUser 2 8 "" zeroTime true]%list
           (mkUser 2 8 "" zeroTime true) snapshotLater messageSample 55 100).
  - reflexivity.
  - apply list_elem_of_further, list_elem_of_here.
  - reflexivity.
  - reflexivity.
  - reflexivity.
  - discriminate.
  - reflexivity.
  - discriminate.
Defined.

(** ** The engine *)

Lemma deref_valid (h : gmap loc QueueData) (l : loc) (q : QueueData) :
  h !! l = Some q -> deref h (Some l) = ret q.
Proof. intros H. unfold deref. rewrite H. reflexivity. Qed.

Lemma CompareQueues_total (h : gmap loc QueueData) (previous : ptr) (l : loc)
    (q : QueueData) :
  (forall pl : loc, previous = Some pl -> is_Some (h !! pl)) ->
  h !! l = Some q ->
  exists changes : QueueChanges,
    CompareQueues h previous (Some l) = ret changes
    /\ (previous = None -> HasChanges changes = true /\ ChangedFields changes = ∅).
Proof.
  intros Hp Hq. destruct previous as [pl|].
  - destruct (Hp pl eq_refl) as [P HP].
    unfold CompareQueues. rewrite (deref_valid h pl P HP), (deref_valid h l q Hq).
    cbn [mbind go_bind bind]. eexists. split; [reflexivity | discriminate].
  - eexists. split; [reflexivity|]. intros _. split; reflexivity.
Qed.

Lemma SaveQueueHistory_total (env : Env) (h : gmap loc QueueData) (l : loc)
    (q : QueueData) (d : Database) :
  h !! l = Some q ->
  exists (d1 : Database) (e : option error),
    SaveQueueHistory env h (Some l) d = ret (d1, e).
Proof.
  intros Hq. unfold SaveQueueHistory. rewrite (deref_valid h l q Hq).
  cbn [mbind go_bind bind]. destruct (dbSaveOk env); eexists; eexists; reflexivity.
Qed.

Lemma storeLastChanged_valid (h : gmap loc QueueData) (l : loc) (q : QueueData)
    (t : Time) :
  h !! l = Some q ->
  storeLastChanged h (Some l) t = ret (<[l := setLastChanged t q]> h).
Proof.
  intros Hq. unfold storeLastChanged. rewrite (deref_valid h l q Hq). reflexivity.
Qed.

Lemma BroadcastQueueUpdate_total (env : Env) (h : gmap loc QueueData) (l : loc)
    (q : QueueData) (changes : option QueueChanges)
    (st : TelegramBot * Database) :
  h !! l = Some q ->
  exists (b : TelegramBot) (d : Database) (e : option error),
    BroadcastQueueUpdate env h (Some l) changes st = ret (b, d, e).
Proof.
  intros Hq. unfold BroadcastQueueUpdate.
  destruct (GetActiveUsers env (snd st)) as [us [e|]].
  - destruct st as [b d]. eexists; eexists; eexists; reflexivity.
  - destruct (decide (length us = 0%nat)).
    + destruct st as [b d]. eexists; eexists; eexists; reflexivity.
    + rewrite (deref_valid h l q Hq). cbn [mbind go_bind bind].
      destruct (FormatTelegramMessage_total q changes) as [message ->].
      cbn [mbind go_bind bind].
      destruct (foldl (notifyUser env message) st us) as [b d].
      eexists; eexists; eexists; reflexivity.
Qed.

Lemma Clone_valid (h : gmap loc QueueData) (l : loc) (q : QueueData) :
  h !! l = Some q ->
  Clone h (Some l) = ret (Some (fresh (dom h)), <[fresh (dom h) := q]> h).
Proof.
  intros Hq. unfold Clone. rewrite (deref_valid h l q Hq).
  cbn [mbind go_bind bind]. destruct q; reflexivity.
Qed.

(** The whole of processQueueUpdate on a valid snapshot. *)
Lemma processQueueUpdate_spec (env : Env) (now : Time)
    (h : gmap loc QueueData) (app : Application) (l : loc) (data : QueueData) :
  h !! l = Some data -> wf h app ->
  exists (changes : QueueChanges) (d1 : Database) (b2 : TelegramBot)
         (d2 : Database) (e : option error),
    CompareQueues h (lastData app) (Some l) = ret changes
    /\ (lastData app = None -> HasChanges changes = true /\ ChangedFields changes = ∅)
    /\ let sticky := nextSticky now app changes in
       let h1 := <[l := setLastChanged (fst sticky) data]> h in
       let shown := if HasChanges changes then Some changes else snd sticky in
       detectChanges env now h app (Some l)
         = ret (h1, mkApplication d1 (bot app) (lastData app) (fst sticky) (snd sticky),
                shown)
       /\ BroadcastQueueUpdate env h1 (Some l) shown (bot app, d1) = ret (b2, d2, e)
       /\ processQueueUpdate env now h app (Some l)
         = ret (<[fresh (dom h1) := setLastChanged (fst sticky) data]> h1,
                mkApplication d2 b2 (Some (fresh (dom h1))) (fst sticky) (snd sticky)).
Proof.
  intros Hq Hwf.
  destruct (CompareQueues_total h (lastData app) l data Hwf Hq)
    as [changes [Hcmp Hfirst]].
  destruct (SaveQueueHistory_total env h l data (db app) Hq) as [d1 [e1 Hsave]].
  set (sticky := nextSticky now app changes).
  set (h1 := <[l := setLastChanged (fst sticky) data]> h).
  set (shown := if HasChanges changes then Some changes else snd sticky).
  assert (Hq1 : h1 !! l = Some (setLastChanged (fst sticky) data))
    by apply lookup_insert_eq.
  destruct (BroadcastQueueUpdate_total env h1 l _ shown (bot app, d1) Hq1)
    as [b2 [d2 [e Hb]]].
  assert (Hdet : detectChanges env now h app (Some l)
                 = ret (h1, mkApplication d1 (bot app) (lastData app)
                              (fst sticky) (snd sticky), shown)).
  { unfold detectChanges. rewrite Hsave. cbn [mbind go_bind bind].
    rewrite Hcmp. cbn [mbind go_bind bind].
    subst shown h1 sticky. unfold nextSticky.
    destruct (lastData app) as [pl|].
    - destruct (HasChanges changes);
        rewrite (storeLastChanged_valid h l data _ Hq); reflexivity.
    - rewrite (storeLastChanged_valid h l data _ Hq).
      destruct (HasChanges changes); reflexivity. }
  exists changes, d1, b2, d2, e.
  split; [exact Hcmp|]. split; [exact Hfirst|].
  cbv zeta. fold sticky. fold h1. fold shown.
  split; [exact Hdet|]. split; [exact Hb|].
  unfold processQueueUpdate. rewrite Hdet. cbn [mbind go_bind bind].
  cbn [bot db lastChanged lastChanges]. rewrite Hb. cbn [mbind go_bind bind].
  rewrite (Clone_valid h1 l _ Hq1). reflexivity.
Qed.

(** C6: for every engine state whose pointers are valid, every snapshot
    handed to processQueueUpdate and every answer of the collaborators
    (history not saved, users not listed, messages not delivered), the
    call returns with [lastData] pointing to a new object, distinct from
    every object that existed before and from the snapshot itself, whose
    fields are those of the snapshot as the cycle leaves it (the fetched
    fields, and [LastChanged] as set by the cycle). *)
Theorem processQueueUpdate_replaces_lastData (env : Env) (now : Time)
    (h : gmap loc QueueData) (app : Application) (l : loc) (data : QueueData) :
  h !! l = Some data -> wf h app ->
  exists (h' : gmap loc QueueData) (app' : Application) (copy : loc),
    processQueueUpdate env now h app (Some l) = ret (h', app')
    /\ lastData app' = Some copy
    /\ (copy ∉ dom h)
    /\ copy <> l
    /\ h' !! l = Some (setLastChanged (lastChanged app') data)
    /\ h' !! copy = h' !! l.
Proof.
  intros Hq Hwf.
  destruct (processQueueUpdate_spec env now h app l data Hq Hwf)
    as [changes [d1 [b2 [d2 [e [_ [_ H]]]]]]].
  cbv zeta in H. destruct H as [_ [_ Hp]].
  set (t := fst (nextSticky now app changes)) in *.
  set (h1 := <[l := setLastChanged t data]> h) in *.
  assert (Hdom : dom h1 = dom h).
  { subst h1. rewrite dom_insert_L.
    apply set_eq. intros x. rewrite elem_of_union, elem_of_singleton.
    split; [intros [->|Hx]; [apply elem_of_dom; eauto | exact Hx] | auto]. }
  pose proof (is_fresh (dom h1)) as Hfresh.
  assert (Hne : fresh (dom h1) <> l).
  { intros Heq. apply Hfresh. rewrite Heq, Hdom. apply elem_of_dom. eauto. }
  eexists; eexists; exists (fresh (dom h1)).
  split; [exact Hp|]. cbn [lastData lastChanged].
  split; [reflexivity|]. split; [rewrite <- Hdom; exact Hfresh|].
  split; [exact Hne|].
  rewrite lookup_insert_eq, lookup_insert_ne by exact Hne.
  subst h1. rewrite lookup_insert_eq. split; reflexivity.
Qed.

Lemma processQueueUpdate_replaces_lastData_witness :
  exists (h' : gmap loc QueueData) (app' : Application) (copy : loc),
    processQueueUpdate envFailing (mkTime 3000 0) twoSnapshots appSample
      (Some 2%positive) = ret (h', app')
    /\ lastData app' = Some copy
    /\ (copy ∉ dom twoSnapshots)
    /\ copy <> 2%positive
    /\ h' !! 2%positive = Some (setLastChanged (lastChanged app') snapshotLater)
    /\ h' !! copy = h' !! 2%positive.
Proof.
  apply (processQueueUpdate_replaces_lastData envFailing (mkTime 3000 0)
           twoSnapshots appSample 2%positive snapshotLater).
  - reflexivity.
  - intros l [= <-]. exists snapshotMorning. reflexivity.
Defined.

(** *** The time of the last change *)












(** The three sample polls in a row: the time of the last change is the
    time of the first poll until the third poll brings a new ticket. *)
Example lastChanged_three_polls :
  (s1 ← run [pollFirst; pollSame]%list
          (∅, newApplication dbSample botSample (mkTime 500 0));
   s2 ← run [pollNext]%list s1;
   ret (ns (lastChanged (snd s1)), ns (lastChanged (snd s2))))
  = ret (1000, 3000).
Proof. vm_compute. reflexivity. Qed.

(** * Further properties *)

(** ** Reading numbers out of display strings *)

Lemma string_app_nil_r (s : string) : s ++ "" = s.
Proof.
  induction s as [|c s IH]; [reflexivity|].
  change (String c (s ++ "") = String c s). now rewrite IH.
Qed.

Lemma string_app_cons (c : ascii) (s t : string) :
  String c s ++ t = String c (s ++ t).
Proof. reflexivity. Qed.

Lemma collectDigits_digitsOf (s : string) : forall numStr : string,
  collectDigits numStr s = numStr ++ digitsOf s.
Proof.
  induction s as [|c s IH]; intros numStr; cbn [collectDigits digitsOf].
  - symmetry. apply string_app_nil_r.
  - destruct (isDigit c); rewrite IH; [|reflexivity].
    rewrite string_app_assoc. reflexivity.
Qed.

Lemma digitsOf_app (a b : string) : digitsOf (a ++ b) = digitsOf a ++ digitsOf b.
Proof.
  induction a as [|c a IH]; [reflexivity|].
  rewrite string_app_cons. cbn [digitsOf].
  destruct (isDigit c); rewrite IH; reflexivity.
Qed.

Lemma digitsOf_allDigits (s : string) : allDigits (digitsOf s) = true.
Proof.
  induction s as [|c s IH]; [reflexivity|]. cbn [digitsOf].
  destruct (isDigit c) eqn:Hc; [|exact IH]. cbn [allDigits]. now rewrite Hc, IH.
Qed.

Lemma digitsOf_digits (s : string) : allDigits s = true -> digitsOf s = s.
Proof.
  induction s as [|c s IH]; [reflexivity|]. cbn [allDigits digitsOf].
  intros H. apply andb_true_iff in H as [-> Hs]. now rewrite IH.
Qed.

(** X1: extractTicketNumber returns a number exactly for the tickets that
    hold at least one digit and whose digits, read together as one
    decimal number, fit in an [int]; the number is that decimal number. *)
Theorem extractTicketNumber_number_iff (ticket : string) (n : Z) :
  extractTicketNumber ticket = (n, None)
  <-> digitsOf ticket <> "" /\ n = decimal 0 (digitsOf ticket) /\ n <= MaxInt64.
Proof.
  unfold extractTicketNumber. cbv zeta.
  rewrite collectDigits_digitsOf. change ("" ++ digitsOf ticket) with (digitsOf ticket).
  destruct (decide (digitsOf ticket = "")) as [He|Hne].
  - split; [discriminate | intros [H _]; contradiction].
  - rewrite (Atoi_digits _ (digitsOf_allDigits ticket) Hne).
    destruct (Z.leb_spec (decimal 0 (digitsOf ticket)) MaxInt64) as [Hle|Hgt].
    + split.
      * intros [= <-]. repeat split; assumption.
      * intros [_ [-> _]]. reflexivity.
    + split; [discriminate|]. intros [_ [-> Hle]]. lia.
Qed.

(** X2: characters that are not digits never matter to
    extractTicketNumber: put anywhere into a ticket that holds a digit,
    they leave the result as it is. *)
Theorem extractTicketNumber_skips_non_digits (a b c : string) :
  noDigit b -> digitsOf (a ++ c) <> "" ->
  extractTicketNumber (a ++ b ++ c) = extractTicketNumber (a ++ c).
Proof.
  unfold noDigit. intros Hb Hne. unfold extractTicketNumber. cbv zeta.
  rewrite !collectDigits_digitsOf.
  change ("" ++ digitsOf (a ++ b ++ c)) with (digitsOf (a ++ b ++ c)).
  change ("" ++ digitsOf (a ++ c)) with (digitsOf (a ++ c)).
  assert (E : digitsOf (a ++ b ++ c) = digitsOf (a ++ c)).
  { rewrite !digitsOf_app, Hb. reflexivity. }
  rewrite E.
  destruct (decide (digitsOf (a ++ c) = "")); [contradiction | reflexivity].
Qed.

Lemma extractTicketNumber_skips_non_digits_witness :
  extractTicketNumber ("K2" ++ "-/" ++ "22") = extractTicketNumber ("K2" ++ "22").
Proof.
  apply (extractTicketNumber_skips_non_digits "K2" "-/" "22");
    [reflexivity | discriminate].
Defined.

Lemma firstDigitRun_run (run : string) : forall (numStr rest : string),
  allDigits run = true -> numStr ++ run <> "" -> stopsRun rest ->
  firstDigitRun numStr (run ++ rest) = numStr ++ run.
Proof.
  induction run as [|c run IH]; intros numStr rest Hrun Hne Hrest.
  - change ("" ++ rest) with rest. rewrite string_app_nil_r in *.
    destruct rest as [|c rest]; [reflexivity|].
    cbn [firstDigitRun]. cbn in Hrest. rewrite Hrest.
    destruct (decide (numStr ≠ "")); [reflexivity | contradiction].
  - cbn [allDigits] in Hrun. apply andb_true_iff in Hrun as [Hc Hrun].
    rewrite string_app_cons. cbn [firstDigitRun]. rewrite Hc.
    rewrite IH; [| exact Hrun | | exact Hrest].
    + rewrite string_app_assoc. reflexivity.
    + rewrite string_app_assoc. exact Hne.
Qed.

Lemma firstDigitRun_skip (pre : string) : forall s : string,
  noDigit pre -> firstDigitRun "" (pre ++ s) = firstDigitRun "" s.
Proof.
  unfold noDigit. induction pre as [|c pre IH]; intros s Hpre; [reflexivity|].
  rewrite string_app_cons. cbn [digitsOf] in Hpre. cbn [firstDigitRun].
  destruct (isDigit c); [discriminate|].
  destruct (decide ("" ≠ "")) as [Hn|_]; [contradiction|].
  apply IH. exact Hpre.
Qed.

(** X3: parseServiceTime and parseWorkplaces read the first run of digits
    of the string and nothing else: whatever comes before the run (no
    digit) and after it (starting with a character that is no digit, and
    possibly holding more digits) is left out. *)
Theorem parse_reads_first_run (pre run rest : string) :
  noDigit pre -> allDigits run = true -> run <> "" -> stopsRun rest ->
  parseServiceTime (pre ++ run ++ rest) = Atoi run
  /\ parseWorkplaces (pre ++ run ++ rest) = Atoi run.
Proof.
  intros Hpre Hrun Hne Hrest.
  assert (E : firstDigitRun "" (pre ++ run ++ rest) = run).
  { rewrite (firstDigitRun_skip pre _ Hpre).
    apply (firstDigitRun_run run "" rest Hrun); assumption. }
  unfold parseServiceTime, parseWorkplaces. cbv zeta. rewrite E.
  destruct (decide (run = "")); [contradiction|]. split; reflexivity.
Qed.

Lemma parse_reads_first_run_witness :
  parseServiceTime ("ok. " ++ "6" ++ " min. 30 s") = Atoi "6"
  /\ parseWorkplaces ("ok. " ++ "6" ++ " min. 30 s") = Atoi "6".
Proof.
  apply (parse_reads_first_run "ok. " "6" " min. 30 s");
    [reflexivity | reflexivity | discriminate | reflexivity].
Defined.

(** ** The estimate in general *)

(** X4: a user ticket or a last ticket without any digit (the empty
    ticket included) gives an error and 0 minutes, whatever the rest of
    the snapshot holds. *)
Theorem CalculateWaitTime_rejects_tickets_without_digits
    (q : QueueData) (userTicket : string) :
  noDigit userTicket \/ noDigit (LastTicket q) ->
  exists err : error, CalculateWaitTime q userTicket = ret (0, Some err).
Proof.
  unfold noDigit. intros Hno. unfold CalculateWaitTime.
  destruct (decide _); [eexists; reflexivity|].
  assert (Hx : forall t, digitsOf t = "" ->
                 extractTicketNumber t = (0, Some (errNoNumber "ticket" t))).
  { intros t Ht. unfold extractTicketNumber. cbv zeta.
    rewrite collectDigits_digitsOf, Ht.
    destruct (decide _) as [_|Hn]; [reflexivity | now contradiction Hn]. }
  destruct (extractTicketNumber userTicket) as [userNum [e|]] eqn:Hu;
    [eexists; reflexivity|].
  destruct Hno as [Hno|Hno].
  - rewrite (Hx _ Hno) in Hu. discriminate.
  - rewrite (Hx _ Hno). eexists; reflexivity.
Qed.

Lemma CalculateWaitTime_rejects_tickets_without_digits_witness :
  exists err : error,
    CalculateWaitTime
      (mkQueueData "odbior" "10" "5" "3" "6 min." "20 min." "K065" "7" "open"
         zeroTime zeroTime) "next" = ret (0, Some err).
Proof.
  apply (CalculateWaitTime_rejects_tickets_without_digits
           (mkQueueData "odbior" "10" "5" "3" "6 min." "20 min." "K065" "7"
              "open" zeroTime zeroTime) "next").
  left. reflexivity.
Defined.

Lemma CalculateWaitTime_unfold (q : QueueData) (userTicket : string)
    (userNum currentNum avg wp : Z) :
  extractTicketNumber userTicket = (userNum, None) ->
  extractTicketNumber (LastTicket q) = (currentNum, None) ->
  currentNum < userNum ->
  parseServiceTime (AvgServiceTime q) = (avg, None) ->
  parseWorkplaces (Workplaces q) = (wp, None) ->
  CalculateWaitTime q userTicket
    = ret (wrap64 (Z.quot (int_mul (userNum - currentNum) avg) (Z.max 1 wp)), None).
Proof.
  intros Hu Hc Hlt Havg Hwp.
  pose proof (extractTicketNumber_range _ _ Hu) as Ru.
  pose proof (extractTicketNumber_range _ _ Hc) as Rc.
  unfold CalculateWaitTime.
  pose proof (extractTicketNumber_nonempty _ _ Hu).
  pose proof (extractTicketNumber_nonempty _ _ Hc).
  destruct (decide _) as [[?|?]|_]; [congruence | congruence |].
  rewrite Hu, Hc, int_sub_tickets by assumption.
  destruct (Z.leb_spec (userNum - currentNum) 0); [lia|].
  rewrite Havg, Hwp. cbv zeta.
  assert (E : (if wp <=? 0 then 1 else wp) = Z.max 1 wp).
  { destruct (Z.leb_spec wp 0); lia. }
  rewrite E, int_div_positive by lia. reflexivity.
Qed.

(** The estimate when every input parses and the product fits. *)
Lemma CalculateWaitTime_estimate (q : QueueData) (userTicket : string)
    (userNum currentNum avgServiceMinutes workplaces : Z) :
  extractTicketNumber userTicket = (userNum, None) ->
  extractTicketNumber (LastTicket q) = (currentNum, None) ->
  currentNum < userNum ->
  parseServiceTime (AvgServiceTime q) = (avgServiceMinutes, None) ->
  parseWorkplaces (Workplaces q) = (workplaces, None) ->
  (userNum - currentNum) * avgServiceMinutes <= MaxInt64 ->
  CalculateWaitTime q userTicket
    = ret ((userNum - currentNum) * avgServiceMinutes / Z.max 1 workplaces, None).
Proof.
  intros Hu Hc Hlt Havg Hwp Hfit.
  pose proof (parseServiceTime_range _ _ Havg) as Ra.
  set (p := (userNum - currentNum) * avgServiceMinutes) in *.
  assert (Hp : 0 <= p) by (subst p; nia).
  assert (Hd : 0 <= p / Z.max 1 workplaces <= p).
  { split; [apply Z.div_pos; lia|].
    apply Z.div_le_upper_bound; [lia|]. nia. }
  rewrite (CalculateWaitTime_unfold q userTicket userNum currentNum
             avgServiceMinutes workplaces Hu Hc Hlt Havg Hwp).
  unfold int_mul. fold p. rewrite (wrap64_small p) by (unfold MinInt64; lia).
  rewrite Z.quot_div_nonneg by lia.
  rewrite wrap64_small; [reflexivity|]. unfold MinInt64. lia.
Qed.

(** X5: with tickets that yield numbers, the user's above the last served
    one, and metrics that parse, as long as the product of the ticket
    distance and the service minutes fits in an [int] the estimate is
    floor(distance * minutes / max(1, workplaces)), with no error; it lies
    between 0 and the product. *)
Theorem CalculateWaitTime_formula (q : QueueData) (userTicket : string)
    (userNum currentNum avgServiceMinutes workplaces : Z) :
  extractTicketNumber userTicket = (userNum, None) ->
  extractTicketNumber (LastTicket q) = (currentNum, None) ->
  currentNum < userNum ->
  parseServiceTime (AvgServiceTime q) = (avgServiceMinutes, None) ->
  parseWorkplaces (Workplaces q) = (workplaces, None) ->
  (userNum - currentNum) * avgServiceMinutes <= MaxInt64 ->
  CalculateWaitTime q userTicket
    = ret ((userNum - currentNum) * avgServiceMinutes / Z.max 1 workplaces, None)
  /\ 0 <= (userNum - currentNum) * avgServiceMinutes / Z.max 1 workplaces
       <= (userNum - currentNum) * avgServiceMinutes.
Proof.
  intros Hu Hc Hlt Havg Hwp Hfit.
  split; [apply CalculateWaitTime_estimate; assumption|].
  pose proof (parseServiceTime_range _ _ Havg) as Ra.
  set (p := (userNum - currentNum) * avgServiceMinutes) in *.
  assert (Hp : 0 <= p) by (subst p; nia).
  split; [apply Z.div_pos; lia|].
  apply Z.div_le_upper_bound; [lia|]. nia.
Qed.

Lemma CalculateWaitTime_formula_witness :
  CalculateWaitTime
    (mkQueueData "odbior" "10" "5" "4 stanowiska" "ok. 7 min." "20 min." "K065"
       "7" "open" zeroTime zeroTime) "K100"
    = ret ((100 - 65) * 7 / Z.max 1 4, None)
  /\ 0 <= (100 - 65) * 7 / Z.max 1 4 <= (100 - 65) * 7.
Proof.
  apply (CalculateWaitTime_formula
           (mkQueueData "odbior" "10" "5" "4 stanowiska" "ok. 7 min." "20 min."
              "K065" "7" "open" zeroTime zeroTime) "K100" 100 65 7 4);
    [reflexivity | reflexivity | lia | reflexivity | reflexivity
    | vm_compute; discriminate].
Defined.

(** X6: on one snapshot, of two user tickets above the last served one
    the one with the larger number never gets the smaller estimate, as
    long as the product for the larger one fits in an [int]. *)
Theorem CalculateWaitTime_monotone (q : QueueData) (ticket1 ticket2 : string)
    (num1 num2 currentNum avgServiceMinutes workplaces : Z) :
  extractTicketNumber ticket1 = (num1, None) ->
  extractTicketNumber ticket2 = (num2, None) ->
  extractTicketNumber (LastTicket q) = (currentNum, None) ->
  currentNum < num1 -> num1 <= num2 ->
  parseServiceTime (AvgServiceTime q) = (avgServiceMinutes, None) ->
  parseWorkplaces (Workplaces q) = (workplaces, None) ->
  (num2 - currentNum) * avgServiceMinutes <= MaxInt64 ->
  exists wait1 wait2 : Z,
    CalculateWaitTime q ticket1 = ret (wait1, None)
    /\ CalculateWaitTime q ticket2 = ret (wait2, None)
    /\ 0 <= wait1 <= wait2.
Proof.
  intros H1 H2 Hc Hlt Hle Havg Hwp Hfit.
  pose proof (parseServiceTime_range _ _ Havg) as Ra.
  assert (Hfit1 : (num1 - currentNum) * avgServiceMinutes <= MaxInt64) by nia.
  pose proof (CalculateWaitTime_estimate q ticket1 num1 currentNum
                avgServiceMinutes workplaces H1 Hc Hlt Havg Hwp Hfit1) as E1.
  pose proof (CalculateWaitTime_estimate q ticket2 num2 currentNum
                avgServiceMinutes workplaces H2 Hc ltac:(lia) Havg Hwp Hfit) as E2.
  eexists; eexists. split; [exact E1|]. split; [exact E2|].
  split; [apply Z.div_pos; [nia | lia] | apply Z.div_le_mono; [lia | nia]].
Qed.

Lemma CalculateWaitTime_monotone_witness :
  exists wait1 wait2 : Z,
    CalculateWaitTime
      (mkQueueData "odbior" "10" "5" "3" "6 min." "20 min." "K065" "7" "open"
         zeroTime zeroTime) "K070" = ret (wait1, None)
    /\ CalculateWaitTime
         (mkQueueData "odbior" "10" "5" "3" "6 min." "20 min." "K065" "7" "open"
            zeroTime zeroTime) "K222" = ret (wait2, None)
    /\ 0 <= wait1 <= wait2.
Proof.
  apply (CalculateWaitTime_monotone
           (mkQueueData "odbior" "10" "5" "3" "6 min." "20 min." "K065" "7"
              "open" zeroTime zeroTime) "K070" "K222" 70 222 65 6 3);
    [reflexivity | reflexivity | reflexivity | lia | lia | reflexivity
    | reflexivity | vm_compute; discriminate].
Defined.

(** ** The message with a ticket *)

Lemma FormatTelegramMessageWithTicket_info (q : QueueData)
    (changes : option QueueChanges) (userTicket info : string) :
  ticketInfo q userTicket = ret info ->
  ticketInfo q "" = ret "" ->
  (info = "" ->
   FormatTelegramMessageWithTicket q changes userTicket
     = FormatTelegramMessage q changes).
Proof.
  intros Hi He ->. unfold FormatTelegramMessage, FormatTelegramMessageWithTicket.
  rewrite Hi, He. reflexivity.
Qed.

(** X7: the renderer never panics, whatever the ticket; and when the
    estimator returns an error, or a negative number of minutes (the
    product has overflowed), no line about the ticket is written: the
    message is the one rendered without a ticket. *)
Theorem FormatTelegramMessageWithTicket_without_estimate
    (q : QueueData) (changes : option QueueChanges) (userTicket : string) :
  FormatTelegramMessageWithTicket q changes userTicket <> panic
  /\ forall (minutes : Z) (err : option error),
      CalculateWaitTime q userTicket = ret (minutes, err) ->
      err <> None \/ minutes < 0 ->
      FormatTelegramMessageWithTicket q changes userTicket
        = FormatTelegramMessage q changes.
Proof.
  assert (He : ticketInfo q "" = ret "").
  { unfold ticketInfo. destruct (decide ("" ≠ "")); [contradiction | reflexivity]. }
  split.
  - unfold FormatTelegramMessageWithTicket, ticketInfo.
    destruct (decide (userTicket ≠ "")); [|cbn; destruct (negb _); discriminate].
    destruct (CalculateWaitTime q userTicket) as [[minutes err]|] eqn:Hc;
      [|now apply CalculateWaitTime_no_panic in Hc].
    cbn [mbind go_bind bind].
    destruct (bool_decide (err = None) && (minutes >? 0));
      [cbn; destruct (negb _); discriminate|].
    destruct (bool_decide (err = None) && (minutes =? 0));
      cbn; destruct (negb _); discriminate.
  - intros minutes err Hc Hbad.
    apply (FormatTelegramMessageWithTicket_info q changes userTicket "");
      [|exact He | reflexivity].
    unfold ticketInfo. destruct (decide (userTicket ≠ "")); [|reflexivity].
    rewrite Hc. cbn [mbind go_bind bind].
    destruct Hbad as [Herr|Hneg].
    + rewrite bool_decide_eq_false_2 by exact Herr. reflexivity.
    + destruct (Z.gtb_spec minutes 0); [lia|].
      destruct (Z.eqb_spec minutes 0); [lia|].
      rewrite !andb_false_r. reflexivity.
Qed.

Lemma FormatTelegramMessageWithTicket_without_estimate_witness :
  FormatTelegramMessageWithTicket
    (mkQueueData "odbior" "10" "5" "1" "3 min." "20 min." "K0" "7" "open"
       zeroTime zeroTime) None "K4611686018427387904"
  = FormatTelegramMessage
      (mkQueueData "odbior" "10" "5" "1" "3 min." "20 min." "K0" "7" "open"
         zeroTime zeroTime) None.
Proof.
  apply (proj2 (FormatTelegramMessageWithTicket_without_estimate
                  (mkQueueData "odbior" "10" "5" "1" "3 min." "20 min." "K0" "7"
                     "open" zeroTime zeroTime) None "K4611686018427387904")
           (-4611686018427387904) None);
    [reflexivity | right; lia].
Defined.

(** ** Escaping for MarkdownV2 *)

Lemma needsEscape_backslash : needsEscape "\"%char = false.
Proof. reflexivity. Qed.

Lemma escapeMarkdown_app (a b : string) :
  escapeMarkdown (a ++ b) = escapeMarkdown a ++ escapeMarkdown b.
Proof.
  induction a as [|c a IH]; [reflexivity|].
  rewrite string_app_cons. cbn [escapeMarkdown].
  destruct (needsEscape c); rewrite IH; reflexivity.
Qed.

(** X8: in the text that escapeMarkdown returns, every character of the
    MarkdownV2 list stands right after a backslash. *)
Theorem escapeMarkdown_escapes_every_special (text : string) :
  forall (before : string) (c : ascii) (after : string),
    escapeMarkdown text = before ++ String c after ->
    needsEscape c = true ->
    exists before' : string, before = before' ++ "\".
Proof.
  induction text as [|x text IH]; intros before c after Heq Hc.
  - destruct before; discriminate Heq.
  - cbn [escapeMarkdown] in Heq. destruct (needsEscape x) eqn:Hx.
    + destruct before as [|b0 before].
      * injection Heq as <- _. rewrite needsEscape_backslash in Hc. discriminate.
      * rewrite string_app_cons in Heq. injection Heq as <- Heq.
        destruct before as [|b1 before].
        -- exists "". reflexivity.
        -- rewrite string_app_cons in Heq. injection Heq as <- Heq.
           destruct (IH before c after Heq Hc) as [before' ->].
           exists (String "\" (String x before')). reflexivity.
    + destruct before as [|b0 before].
      * injection Heq as <- _. congruence.
      * rewrite string_app_cons in Heq. injection Heq as <- Heq.
        destruct (IH before c after Heq Hc) as [before' ->].
        exists (String x before'). reflexivity.
Qed.

Lemma escapeMarkdown_escapes_every_special_witness :
  exists before' : string, "6 min\" = before' ++ "\".
Proof.
  apply (escapeMarkdown_escapes_every_special "6 min." "6 min\" "."%char "");
    reflexivity.
Defined.

(** X9: escapeMarkdown loses nothing: two texts with the same escaped
    form are the same text. *)
Theorem escapeMarkdown_injective (a : string) : forall b : string,
  escapeMarkdown a = escapeMarkdown b -> a = b.
Proof.
  induction a as [|x a IH]; intros b Heq.
  - destruct b as [|y b]; [reflexivity|].
    cbn [escapeMarkdown] in Heq. destruct (needsEscape y); discriminate Heq.
  - destruct b as [|y b].
    + cbn [escapeMarkdown] in Heq. destruct (needsEscape x); discriminate Heq.
    + cbn [escapeMarkdown] in Heq.
      destruct (needsEscape x) eqn:Hx, (needsEscape y) eqn:Hy.
      * injection Heq as -> Heq. f_equal. apply IH. exact Heq.
      * injection Heq as <- Heq. exfalso.
        destruct b as [|z b]; [discriminate Heq|].
        cbn [escapeMarkdown] in Heq. destruct (needsEscape z) eqn:Hz.
        -- injection Heq as -> _. rewrite needsEscape_backslash in Hx. discriminate.
        -- injection Heq as -> _. congruence.
      * injection Heq as -> Heq. exfalso.
        destruct a as [|z a]; [discriminate Heq|].
        cbn [escapeMarkdown] in Heq. destruct (needsEscape z) eqn:Hz.
        -- injection Heq as <- _. rewrite needsEscape_backslash in Hy. discriminate.
        -- injection Heq as <- _. congruence.
      * injection Heq as -> Heq. f_equal. apply IH. exact Heq.
Qed.

Lemma escapeMarkdown_injective_witness : "K-1" = "K-1".
Proof. apply (escapeMarkdown_injective "K-1" "K-1"). reflexivity. Defined.

(** ** More on the comparator *)

Lemma if_decide_bool {A : Type} (P : Prop) `{Decision P} (a b : A) :
  (if decide P then a else b) = (if bool_decide P then a else b).
Proof. unfold bool_decide, decide. destruct H; reflexivity. Qed.

Lemma CompareQueues_flagsOf (h : gmap loc QueueData) (pl cl : loc)
    (P C : QueueData) :
  h !! pl = Some P -> h !! cl = Some C ->
  CompareQueues h (Some pl) (Some cl)
    = ret (flagsOf (bool_decide (Name P ≠ Name C))
             (bool_decide (ServedClients P ≠ ServedClients C))
             (bool_decide (WaitingClients P ≠ WaitingClients C))
             (bool_decide (Workplaces P ≠ Workplaces C))
             (bool_decide (LastTicket P ≠ LastTicket C))
             (bool_decide (TicketsLeft P ≠ TicketsLeft C))
             (bool_decide (Status P ≠ Status C)) (Some pl) (Some cl)).
Proof.
  intros HP HC. unfold CompareQueues, deref. rewrite HP, HC.
  cbn [mbind go_bind bind]. cbv zeta. rewrite !if_decide_bool. reflexivity.
Qed.

Lemma bool_decide_ne_sym {A : Type} `{EqDecision A} (x y : A) :
  bool_decide (x ≠ y) = bool_decide (y ≠ x).
Proof. apply bool_decide_ext. split; intros H E; apply H; symmetry; exact E. Qed.

Lemma flagsOf_pointers (b1 b2 b3 b4 b5 b6 b7 : bool) (p c p' c' : ptr) :
  HasChanges (flagsOf b1 b2 b3 b4 b5 b6 b7 p c)
    = HasChanges (flagsOf b1 b2 b3 b4 b5 b6 b7 p' c')
  /\ ChangedFields (flagsOf b1 b2 b3 b4 b5 b6 b7 p c)
    = ChangedFields (flagsOf b1 b2 b3 b4 b5 b6 b7 p' c').
Proof. destruct b1, b2, b3, b4, b5, b6, b7; split; reflexivity. Qed.

(** X10: the comparator is symmetric: with the two snapshots swapped it
    sets [HasChanges] to the same value and flags the same fields. *)
Theorem CompareQueues_symmetric (h : gmap loc QueueData) (pl cl : loc)
    (P C : QueueData) :
  h !! pl = Some P -> h !! cl = Some C ->
  exists forth back : QueueChanges,
    CompareQueues h (Some pl) (Some cl) = ret forth
    /\ CompareQueues h (Some cl) (Some pl) = ret back
    /\ HasChanges forth = HasChanges back
    /\ ChangedFields forth = ChangedFields back.
Proof.
  intros HP HC. eexists; eexists.
  split; [apply (CompareQueues_flagsOf h pl cl P C HP HC)|].
  split; [apply (CompareQueues_flagsOf h cl pl C P HC HP)|].
  rewrite (bool_decide_ne_sym (Name C)), (bool_decide_ne_sym (ServedClients C)),
    (bool_decide_ne_sym (WaitingClients C)), (bool_decide_ne_sym (Workplaces C)),
    (bool_decide_ne_sym (LastTicket C)), (bool_decide_ne_sym (TicketsLeft C)),
    (bool_decide_ne_sym (Status C)).
  apply flagsOf_pointers.
Qed.

Lemma CompareQueues_symmetric_witness :
  exists forth back : QueueChanges,
    CompareQueues renamedSnapshots (Some 1%positive) (Some 2%positive) = ret forth
    /\ CompareQueues renamedSnapshots (Some 2%positive) (Some 1%positive) = ret back
    /\ HasChanges forth = HasChanges back
    /\ ChangedFields forth = ChangedFields back.
Proof.
  apply (CompareQueues_symmetric renamedSnapshots 1%positive 2%positive
           snapshotMorning snapshotRenamed); reflexivity.
Defined.

Lemma flagsOf_no_change (b1 b2 b3 b4 b5 b6 b7 : bool) (p c : ptr) :
  (HasChanges (flagsOf b1 b2 b3 b4 b5 b6 b7 p c) = false
   <-> ChangedFields (flagsOf b1 b2 b3 b4 b5 b6 b7 p c) = ∅)
  /\ (HasChanges (flagsOf b1 b2 b3 b4 b5 b6 b7 p c) = false
      <-> b1 = false /\ b2 = false /\ b3 = false /\ b4 = false /\ b5 = false
          /\ b6 = false /\ b7 = false).
Proof.
  destruct b1, b2, b3, b4, b5, b6, b7;
    cbn [flagsOf mark HasChanges ChangedFields]; split; split;
    first [ discriminate
          | reflexivity
          | intros H; exfalso; exact (insert_non_empty _ _ _ H)
          | intros _; repeat split; reflexivity
          | intros [? [? [? [? [? [? ?]]]]]]; discriminate ].
Qed.

(** X11: compared with a snapshot that is present, [HasChanges] is unset
    exactly when no field is flagged, and exactly when the two snapshots
    agree on the seven compared fields; a snapshot compared with itself,
    or with one that differs in the average times or the timestamps
    only, reports no change. *)
Theorem CompareQueues_no_change_iff (h : gmap loc QueueData) (pl cl : loc)
    (P C : QueueData) :
  h !! pl = Some P -> h !! cl = Some C ->
  exists ch : QueueChanges,
    CompareQueues h (Some pl) (Some cl) = ret ch
    /\ (HasChanges ch = false <-> ChangedFields ch = ∅)
    /\ (HasChanges ch = false <-> sameTracked P C).
Proof.
  intros HP HC. eexists. split; [apply (CompareQueues_flagsOf h pl cl P C HP HC)|].
  match goal with
  | |- context [flagsOf ?b1 ?b2 ?b3 ?b4 ?b5 ?b6 ?b7 ?p ?c] =>
    destruct (flagsOf_no_change b1 b2 b3 b4 b5 b6 b7 p c) as [H1 H2]
  end.
  split; [exact H1|]. rewrite H2. unfold sameTracked.
  rewrite !bool_decide_eq_false. 
  split; intros [? [? [? [? [? [? ?]]]]]]; repeat split;
    first [ apply dec_stable; assumption | intros Hn; apply Hn; assumption ].
Qed.

Lemma CompareQueues_no_change_iff_witness :
  exists ch : QueueChanges,
    CompareQueues twoSnapshots (Some 1%positive) (Some 1%positive) = ret ch
    /\ (HasChanges ch = false <-> ChangedFields ch = ∅)
    /\ (HasChanges ch = false <-> sameTracked snapshotMorning snapshotMorning).
Proof.
  apply (CompareQueues_no_change_iff twoSnapshots 1%positive 1%positive
           snapshotMorning snapshotMorning); reflexivity.
Defined.

Lemma formatField_unflagged (ch : QueueChanges) (label value key : string) :
  index (ChangedFields ch) key = false ->
  formatField (Some ch) label value key = formatField None label value key.
Proof. intros H. unfold formatField. rewrite H. reflexivity. Qed.

Lemma flagsOf_shown (b1 : bool) (p c : ptr) (key : string) :
  key <> "name" ->
  index (ChangedFields (flagsOf b1 false false false false false false p c)) key
    = false.
Proof.
  intros Hk. destruct b1; cbn; unfold index; [|now rewrite lookup_empty].
  rewrite lookup_insert_ne by congruence. now rewrite lookup_empty.
Qed.

Lemma flagsOf_average (b1 b2 b3 b4 b5 b6 b7 : bool) (p c : ptr) :
  index (ChangedFields (flagsOf b1 b2 b3 b4 b5 b6 b7 p c)) "avg_service_time"
    = false.
Proof. destruct b1, b2, b3, b4, b5, b6, b7; reflexivity. Qed.

(** X12: what the comparator flags and what the message marks differ in
    two fields.  The line of the average service time is never marked for
    a change-set that comes from the comparator; and a change of the
    queue name alone is reported as a change but leaves the message
    exactly as it is rendered without any change-set. *)
Theorem renamed_queue_shows_no_marker (h : gmap loc QueueData) (pl cl : loc)
    (P C : QueueData) :
  h !! pl = Some P -> h !! cl = Some C ->
  exists ch : QueueChanges,
    CompareQueues h (Some pl) (Some cl) = ret ch
    /\ (forall label value : string,
          formatField (Some ch) label value "avg_service_time"
            = formatField None label value "avg_service_time")
    /\ (sameShown P C ->
        (Name P <> Name C -> HasChanges ch = true)
        /\ forall (q : QueueData) (userTicket : string),
             FormatTelegramMessageWithTicket q (Some ch) userTicket
               = FormatTelegramMessageWithTicket q None userTicket).
Proof.
  intros HP HC. eexists. split; [apply (CompareQueues_flagsOf h pl cl P C HP HC)|].
  split.
  - intros label value. apply formatField_unflagged, flagsOf_average.
  - intros [H2 [H3 [H4 [H5 [H6 H7]]]]].
    rewrite (bool_decide_eq_false_2 (ServedClients P ≠ ServedClients C)) by auto.
    rewrite (bool_decide_eq_false_2 (WaitingClients P ≠ WaitingClients C)) by auto.
    rewrite (bool_decide_eq_false_2 (Workplaces P ≠ Workplaces C)) by auto.
    rewrite (bool_decide_eq_false_2 (LastTicket P ≠ LastTicket C)) by auto.
    rewrite (bool_decide_eq_false_2 (TicketsLeft P ≠ TicketsLeft C)) by auto.
    rewrite (bool_decide_eq_false_2 (Status P ≠ Status C)) by auto.
    split.
    + intros Hn. rewrite (bool_decide_eq_true_2 _ Hn). reflexivity.
    + intros q userTicket. unfold FormatTelegramMessageWithTicket.
      rewrite !(formatField_unflagged (flagsOf _ _ _ _ _ _ _ _ _))
        by (apply flagsOf_shown; discriminate).
      reflexivity.
Qed.

Lemma renamed_queue_shows_no_marker_witness :
  exists ch : QueueChanges,
    CompareQueues renamedSnapshots (Some 1%positive) (Some 2%positive) = ret ch
    /\ (forall label value : string,
          formatField (Some ch) label value "avg_service_time"
            = formatField None label value "avg_service_time")
    /\ (sameShown snapshotMorning snapshotRenamed ->
        (Name snapshotMorning <> Name snapshotRenamed -> HasChanges ch = true)
        /\ forall (q : QueueData) (userTicket : string),
             FormatTelegramMessageWithTicket q (Some ch) userTicket
               = FormatTelegramMessageWithTicket q None userTicket).
Proof.
  apply (renamed_queue_shows_no_marker renamedSnapshots 1%positive 2%positive
           snapshotMorning snapshotRenamed); reflexivity.
Defined.

(** ** The copy of a snapshot *)

(** X13: Clone of nil is nil and allocates nothing; Clone of a snapshot
    returns a new object with the same fields and leaves every existing
    object as it is, and a later write of [LastChanged] to the original
    does not reach the copy. *)
Theorem Clone_independent (h : gmap loc QueueData) :
  Clone h None = ret (None, h)
  /\ forall (l : loc) (q : QueueData),
      h !! l = Some q ->
      exists (copy : loc) (h' : gmap loc QueueData),
        Clone h (Some l) = ret (Some copy, h')
        /\ (copy ∉ dom h)
        /\ h' !! copy = Some q
        /\ (forall l' : loc, l' ∈ dom h -> h' !! l' = h !! l')
        /\ forall t : Time,
             exists h'' : gmap loc QueueData,
               storeLastChanged h' (Some l) t = ret h''
               /\ h'' !! l = Some (setLastChanged t q)
               /\ h'' !! copy = Some q.
Proof.
  split; [reflexivity|]. intros l q Hq.
  pose proof (is_fresh (dom h)) as Hfresh.
  assert (Hne : fresh (dom h) <> l).
  { intros Heq. apply Hfresh. rewrite Heq. apply elem_of_dom. eauto. }
  exists (fresh (dom h)), (<[fresh (dom h) := q]> h).
  split; [apply Clone_valid; exact Hq|]. split; [exact Hfresh|].
  split; [apply lookup_insert_eq|]. split.
  - intros l' Hl'. apply lookup_insert_ne. intros Heq. apply Hfresh.
    rewrite Heq. exact Hl'.
  - intros t. eexists. split.
    + apply storeLastChanged_valid. rewrite lookup_insert_ne by exact Hne. exact Hq.
    + split; [apply lookup_insert_eq|].
      rewrite lookup_insert_ne by (intros E; apply Hne; symmetry; exact E).
      apply lookup_insert_eq.
Qed.

Lemma Clone_independent_witness :
  exists (copy : loc) (h' : gmap loc QueueData),
    Clone twoSnapshots (Some 2%positive) = ret (Some copy, h')
    /\ (copy ∉ dom twoSnapshots)
    /\ h' !! copy = Some snapshotLater
    /\ (forall l' : loc, l' ∈ dom twoSnapshots -> h' !! l' = twoSnapshots !! l')
    /\ forall t : Time,
         exists h'' : gmap loc QueueData,
           storeLastChanged h' (Some 2%positive) t = ret h''
           /\ h'' !! 2%positive = Some (setLastChanged t snapshotLater)
           /\ h'' !! copy = Some snapshotLater.
Proof.
  apply (proj2 (Clone_independent twoSnapshots) 2%positive snapshotLater).
  reflexivity.
Defined.

(** ** The table of users *)

Lemma filter_none {A : Type} (P : A -> Prop) `{forall x, Decision (P x)}
    (l : list A) :
  (forall x : A, x ∈ l -> ~ P x) -> filter P l = []%list.
Proof.
  induction l as [|x l IH]; intros Hl; [reflexivity|].
  rewrite filter_cons. destruct (decide (P x)) as [Hp|_].
  - exfalso. apply (Hl x); [apply list_elem_of_here | exact Hp].
  - apply IH. intros y Hy. apply Hl. apply list_elem_of_further. exact Hy.
Qed.

Lemma filter_all {A : Type} (P : A -> Prop) `{forall x, Decision (P x)}
    (l : list A) :
  (forall x : A, x ∈ l -> P x) -> filter P l = l.
Proof.
  induction l as [|x l IH]; intros Hl; [reflexivity|].
  rewrite filter_cons. destruct (decide (P x)) as [_|Hn].
  - f_equal. apply IH. intros y Hy. apply Hl. apply list_elem_of_further. exact Hy.
  - exfalso. apply Hn, Hl, list_elem_of_here.
Qed.

Lemma NoDup_fmap_filter {A B : Type} (f : A -> B) (P : A -> Prop)
    `{forall x, Decision (P x)} (l : list A) :
  NoDup (f <$> l) -> NoDup (f <$> filter P l).
Proof.
  induction l as [|x l IH]; intros Hnd; [constructor|].
  rewrite fmap_cons in Hnd. apply NoDup_cons in Hnd as [Hx Hnd].
  rewrite filter_cons. destruct (decide (P x)); [|apply IH; exact Hnd].
  rewrite fmap_cons. apply NoDup_cons. split; [|apply IH; exact Hnd].
  intros Hin. apply Hx. apply list_elem_of_fmap in Hin as [y [Hy Hin]].
  apply list_elem_of_filter in Hin as [_ Hin].
  apply list_elem_of_fmap. exists y. split; assumption.
Qed.

Lemma unique_chat_row (d : Database) (r : UserRow) :
  uniqueChats d -> r ∈ users d ->
  filter (fun x => row_chat_id x = row_chat_id r) (users d) = [r]%list.
Proof.
  unfold uniqueChats. induction (users d) as [|x l IH]; intros Hnd Hr;
    [inversion Hr|].
  rewrite fmap_cons in Hnd. apply NoDup_cons in Hnd as [Hx Hnd].
  rewrite filter_cons. apply elem_of_cons in Hr as [->|Hr].
  - destruct (decide _) as [_|Hn]; [|contradiction]. f_equal.
    apply filter_none. intros y Hy Heq. apply Hx.
    apply list_elem_of_fmap. exists y. split; [symmetry; exact Heq | exact Hy].
  - destruct (decide _) as [Heq|_]; [|apply IH; assumption].
    exfalso. apply Hx. apply list_elem_of_fmap. exists r.
    split; [exact Heq | exact Hr].
Qed.

(** X14: when SQLite carries the statement out, AddUser leaves exactly
    one row for the chat: active, with the given username and the new id;
    its [joined_at] is the one the chat already had, or the current time
    for a chat that had no row.  Rows of other chats are kept (unless one
    held the new id), no other row appears, the chat is listed among the
    active users, chats stay unique, and the history is not touched.
    When SQLite fails, the database is unchanged and an error is
    returned. *)
Theorem AddUser_registers (rowid : Z) (now : Time) (chatID : Z)
    (username : string) (d : Database) :
  (exists err : error, AddUser false rowid now chatID username d = (d, Some err))
  /\ exists (d' : Database) (joined : Time),
      AddUser true rowid now chatID username d = (d', None)
      /\ filter (fun r => row_chat_id r = chatID) (users d')
         = [mkUserRow rowid chatID (Some username) joined true]%list
      /\ (unknownChat chatID d -> joined = now)
      /\ (forall r : UserRow,
            uniqueChats d -> r ∈ users d -> row_chat_id r = chatID ->
            joined = row_joined_at r)
      /\ (forall r : UserRow,
            r ∈ users d -> row_chat_id r <> chatID -> row_id r <> rowid ->
            r ∈ users d')
      /\ (forall r : UserRow,
            r ∈ users d' ->
            r = mkUserRow rowid chatID (Some username) joined true \/ r ∈ users d)
      /\ (forall env : Env,
            dbListOk env = true ->
            mkUser rowid chatID username joined true ∈ fst (GetActiveUsers env d'))
      /\ (uniqueChats d -> uniqueChats d')
      /\ queue_history d' = queue_history d.
Proof.
  split; [eexists; reflexivity|].
  set (kept := filter (fun r => row_chat_id r ≠ chatID ∧ row_id r ≠ rowid) (users d)).
  set (joined := match filter (fun r => row_chat_id r = chatID) (users d) with
                 | (r :: _)%list => row_joined_at r
                 | []%list => now
                 end).
  set (new := mkUserRow rowid chatID (Some username) joined true).
  exists (mkDatabase (kept ++ [new])%list (queue_history d)), joined.
  split; [reflexivity|]. cbn [users queue_history].
  assert (Hkept : forall r, r ∈ kept -> row_chat_id r <> chatID /\ r ∈ users d).
  { intros r Hr. apply list_elem_of_filter in Hr as [[H1 _] H2]. split; assumption. }
  split; [|split; [|split; [|split; [|split; [|split; [|split]]]]]].
  - rewrite filter_app, (filter_none _ kept) by (intros r Hr; apply (Hkept r Hr)).
    rewrite filter_cons. destruct (decide _) as [_|Hn]; [reflexivity|].
    exfalso. apply Hn. reflexivity.
  - intros Hun. subst joined. rewrite filter_none; [reflexivity | exact Hun].
  - intros r Hnd Hr Hc. subst joined. rewrite <- Hc.
    rewrite (unique_chat_row d r Hnd Hr). reflexivity.
  - intros r Hr Hc Hi. apply elem_of_app. left.
    apply list_elem_of_filter. repeat split; assumption.
  - intros r Hr. apply elem_of_app in Hr as [Hr|Hr].
    + right. apply (Hkept r Hr).
    + left. apply list_elem_of_singleton in Hr. exact Hr.
  - intros env Hok. unfold GetActiveUsers. rewrite Hok. cbn [fst users].
    change (mkUser rowid chatID username joined true) with (scanUser new).
    apply list_elem_of_fmap_2, list_elem_of_filter. split; [reflexivity|].
    apply elem_of_app. right. apply list_elem_of_singleton. reflexivity.
  - unfold uniqueChats. cbn [users]. intros Hnd. rewrite fmap_app.
    apply NoDup_app. split; [apply NoDup_fmap_filter; exact Hnd|]. split.
    + intros x Hx Hx'. cbn in Hx'. apply list_elem_of_singleton in Hx'. subst x.
      apply list_elem_of_fmap in Hx as [r [Hc Hr]].
      apply (Hkept r Hr). symmetry. exact Hc.
    + cbn. apply NoDup_singleton.
  - reflexivity.
Qed.

Lemma deactivateRow_chat (chatID : Z) (r : UserRow) :
  row_chat_id (deactivateRow chatID r) = row_chat_id r.
Proof. unfold deactivateRow. destruct (decide _); reflexivity. Qed.

Lemma DeactivateUser_chats (env : Env) (chatID : Z) (d : Database) :
  row_chat_id <$> users (fst (DeactivateUser env chatID d))
    = row_chat_id <$> users d.
Proof.
  unfold DeactivateUser. destruct (dbDeactivateOk env chatID); [|reflexivity].
  cbn [fst users]. rewrite <- list_fmap_compose. apply list_fmap_ext.
  intros i r _. apply deactivateRow_chat.
Qed.

(** X15: DeactivateUser keeps the chats of the table unique, never adds
    or removes a row and does not touch the history; for a chat that has
    no row it changes nothing and returns no error; done twice, it gives
    what it gives done once. *)
Theorem DeactivateUser_table (env : Env) (chatID : Z) (d : Database) :
  (uniqueChats d -> uniqueChats (fst (DeactivateUser env chatID d)))
  /\ length (users (fst (DeactivateUser env chatID d))) = length (users d)
  /\ queue_history (fst (DeactivateUser env chatID d)) = queue_history d
  /\ (unknownChat chatID d -> dbDeactivateOk env chatID = true ->
      DeactivateUser env chatID d = (d, None))
  /\ fst (DeactivateUser env chatID (fst (DeactivateUser env chatID d)))
     = fst (DeactivateUser env chatID d).
Proof.
  split; [|split; [|split; [|split]]].
  - unfold uniqueChats. rewrite DeactivateUser_chats. trivial.
  - unfold DeactivateUser. destruct (dbDeactivateOk env chatID); [|reflexivity].
    cbn. apply length_fmap.
  - unfold DeactivateUser. destruct (dbDeactivateOk env chatID); reflexivity.
  - intros Hun Hok. unfold DeactivateUser. rewrite Hok. destruct d as [us hist].
    cbn [users queue_history] in *. f_equal. f_equal.
    rewrite <- (list_fmap_id us) at 2. apply list_fmap_ext.
    intros i r Hr. unfold deactivateRow.
    destruct (decide _) as [Hc|_]; [|reflexivity].
    exfalso. apply (Hun r); [|exact Hc]. apply list_elem_of_lookup. eauto.
  - unfold DeactivateUser. destruct (dbDeactivateOk env chatID) eqn:Hok;
      cbn [fst]; rewrite ?Hok; [|reflexivity].
    cbn [fst users queue_history]. f_equal.
    rewrite <- list_fmap_compose. apply list_fmap_ext.
    intros i r _. cbn. unfold deactivateRow at 2.
    destruct (decide (row_chat_id r = chatID)) as [Hc|Hc].
    + unfold deactivateRow. cbn. destruct (decide _); [reflexivity | contradiction].
    + unfold deactivateRow. destruct (decide _); [contradiction | reflexivity].
Qed.

Lemma DeactivateUser_table_witness :
  DeactivateUser envSample 99 dbSample = (dbSample, None).
Proof.
  apply (proj1 (proj2 (proj2 (proj2 (DeactivateUser_table envSample 99 dbSample))))).
  - intros r Hr Hc. 
    apply list_elem_of_In in Hr. cbn in Hr.
    destruct Hr as [<-|[<-|[]]]; discriminate Hc.
  - reflexivity.
Defined.

Lemma AddUser_listed (rowid : Z) (now : Time) (chatID : Z) (username : string)
    (d : Database) (env : Env) (r0 : UserRow) (rest : list UserRow) :
  filter (fun r => row_chat_id r = chatID) (users d) = (r0 :: rest)%list ->
  dbListOk env = true ->
  mkUser rowid chatID username (row_joined_at r0) true
    ∈ fst (GetActiveUsers env (fst (AddUser true rowid now chatID username d))).
Proof.
  intros Hf Hok. unfold GetActiveUsers, AddUser. rewrite Hok, Hf. cbn [fst users].
  change (mkUser rowid chatID username (row_joined_at r0) true)
    with (scanUser (mkUserRow rowid chatID (Some username) (row_joined_at r0) true)).
  apply list_elem_of_fmap_2, list_elem_of_filter. split; [reflexivity|].
  apply elem_of_app. right. apply list_elem_of_singleton. reflexivity.
Qed.

(** X16: the life of a subscriber in the table, for a chat that has a row
    and a table with unique chats.  Once deactivated the chat is no
    longer listed; registered again it is listed again, under the new
    username and id, with the time it first joined; and a chat that is
    registered and then deactivated is not listed. *)
Theorem subscriber_reactivated (env : Env) (rowid : Z) (now : Time)
    (username : string) (d : Database) (r : UserRow) :
  uniqueChats d -> r ∈ users d -> dbDeactivateOk env (row_chat_id r) = true ->
  let chatID := row_chat_id r in
  let retired := fst (DeactivateUser env chatID d) in
  (forall (env' : Env) (u : User),
     u ∈ fst (GetActiveUsers env' retired) -> ChatID u <> chatID)
  /\ (forall env' : Env,
        dbListOk env' = true ->
        mkUser rowid chatID username (row_joined_at r) true
          ∈ fst (GetActiveUsers env'
                   (fst (AddUser true rowid now chatID username retired))))
  /\ (forall (env' : Env) (u : User),
        u ∈ fst (GetActiveUsers env'
                   (fst (DeactivateUser env chatID
                           (fst (AddUser true rowid now chatID username d))))) ->
        ChatID u <> chatID).
Proof.
  intros Hnd Hr Hok. cbv zeta. split; [|split].
  - intros env' u. apply GetActiveUsers_inactive.
    apply DeactivateUser_inactive. exact Hok.
  - intros env' Hlist.
    set (retired := fst (DeactivateUser env (row_chat_id r) d)).
    assert (Hr' : deactivateRow (row_chat_id r) r ∈ users retired).
    { subst retired. unfold DeactivateUser. rewrite Hok. cbn [fst users].
      apply list_elem_of_fmap_2. exact Hr. }
    assert (Hnd' : uniqueChats retired).
    { unfold uniqueChats. subst retired. rewrite DeactivateUser_chats. exact Hnd. }
    pose proof (unique_chat_row retired _ Hnd' Hr') as Hf.
    rewrite deactivateRow_chat in Hf.
    replace (row_joined_at r)
      with (row_joined_at (deactivateRow (row_chat_id r) r)).
    + apply (AddUser_listed rowid now (row_chat_id r) username retired env' _
               []%list Hf Hlist).
    + unfold deactivateRow. destruct (decide _); reflexivity.
  - intros env' u. apply GetActiveUsers_inactive.
    apply DeactivateUser_inactive. exact Hok.
Qed.

Lemma subscriber_reactivated_witness :
  mkUser 3 8 "ola" zeroTime true
    ∈ fst (GetActiveUsers envSample
             (fst (AddUser true 3 (mkTime 9000 0) 8 "ola"
                     (fst (DeactivateUser envSample 8 dbSample))))).
Proof.
  apply (proj1 (proj2 (subscriber_reactivated envSample 3 (mkTime 9000 0) "ola"
                         dbSample (mkUserRow 2 8 None zeroTime true)
                         ltac:(unfold uniqueChats; cbn; repeat constructor;
                               rewrite ?list_elem_of_In; cbn; intuition discriminate)
                         ltac:(apply list_elem_of_further, list_elem_of_here)
                         ltac:(reflexivity)))).
  reflexivity.
Defined.

(** ** Invariants of the bot *)

Section Loop.

Variable env : Env.
Variable message : string.

Lemma sendNew_handlesNonZero (u : User) (st : TelegramBot * Database) :
  handlesNonZero (fst st) -> handlesNonZero (fst (sendNew env message u st)).
Proof.
  intros Hnz. destruct st as [b d]. unfold sendNew.
  destruct (decide _) as [Hm|_]; cbn [fst]; [|exact Hnz].
  intros c m. cbn [userMsgs]. rewrite lookup_insert.
  destruct (decide (ChatID u = c)); [intros [= <-]; exact Hm | apply Hnz].
Qed.

Lemma notifyUser_handlesNonZero (st : TelegramBot * Database) (u : User) :
  handlesNonZero (fst st) -> handlesNonZero (fst (notifyUser env message st u)).
Proof.
  intros Hnz. destruct st as [b d]. unfold notifyUser.
  destruct (userMsgs b !! ChatID u) as [msgID|];
    [|apply sendNew_handlesNonZero; exact Hnz].
  destruct (updateMessage env (ChatID u) msgID message); [|exact Hnz].
  apply sendNew_handlesNonZero. intros c m. cbn [fst userMsgs].
  rewrite lookup_delete. destruct (decide (ChatID u = c)); [discriminate|].
  apply Hnz.
Qed.

(** The database from which the users of the loop were listed. *)
Variable d0 : Database.

Lemma notifyUser_reachableKept (st : TelegramBot * Database) (u : User) :
  reachableKept env message d0 st ->
  reachableKept env message d0 (notifyUser env message st u).
Proof.
  intros Hk c Hc.
  apply (notifyUser_rowsKept env message c (sendMessage env c message) eq_refl Hc).
  apply Hk. exact Hc.
Qed.

Lemma sendNew_handlesActive (u : User) (b b1 : TelegramBot) (d : Database) :
  handlesActive (b, d) -> reachableKept env message d0 (b, d) ->
  (forall c m, userMsgs b1 !! c = Some m -> userMsgs b !! c = Some m) ->
  userMsgs b1 !! ChatID u = None ->
  (exists r : UserRow,
     r ∈ users d0 /\ row_chat_id r = ChatID u /\ row_active r = true) ->
  handlesActive (sendNew env message u (b1, d)).
Proof.
  intros Hact Hk Hsub Hnone [r [Hr [Hrc Hra]]]. unfold sendNew.
  destruct (decide _) as [Hm|Hz]; intros c m; cbn [fst snd userMsgs].
  - rewrite lookup_insert. destruct (decide (ChatID u = c)) as [<-|Hne].
    + intros _. exists r. split; [|split; assumption].
      apply (Hk (ChatID u) Hm r Hr Hrc).
    + intros Hc. apply (Hact c m). apply Hsub. exact Hc.
  - intros Hc. assert (Hne : c <> ChatID u) by congruence.
    destruct (Hact c m (Hsub c m Hc)) as [r' [Hr' [Hrc' Hra']]].
    exists r'. split; [|split; assumption].
    apply DeactivateUser_keeps; [congruence | exact Hr'].
Qed.

Lemma notifyUser_handlesActive (st : TelegramBot * Database) (u : User) :
  handlesActive st -> reachableKept env message d0 st ->
  (exists r : UserRow,
     r ∈ users d0 /\ row_chat_id r = ChatID u /\ row_active r = true) ->
  handlesActive (notifyUser env message st u).
Proof.
  intros Hact Hk Hu. destruct st as [b d]. unfold notifyUser.
  destruct (userMsgs b !! ChatID u) as [msgID|] eqn:Hh.
  - destruct (updateMessage env (ChatID u) msgID message); [|exact Hact].
    apply (sendNew_handlesActive u b); try assumption.
    + intros c m. cbn [userMsgs]. rewrite lookup_delete.
      destruct (decide (ChatID u = c)); [discriminate | trivial].
    + cbn [userMsgs]. apply lookup_delete_eq.
  - apply (sendNew_handlesActive u b); try assumption. trivial.
Qed.

Lemma foldl_invariants (us : list User) : forall st : TelegramBot * Database,
  handlesNonZero (fst st) -> handlesActive st -> reachableKept env message d0 st ->
  (forall u : User, u ∈ us ->
     exists r : UserRow,
       r ∈ users d0 /\ row_chat_id r = ChatID u /\ row_active r = true) ->
  handlesNonZero (fst (foldl (notifyUser env message) st us))
  /\ handlesActive (foldl (notifyUser env message) st us).
Proof.
  induction us as [|u us IH]; intros st Hnz Hact Hk Hus; [split; assumption|].
  cbn [foldl]. apply IH.
  - apply notifyUser_handlesNonZero. exact Hnz.
  - apply notifyUser_handlesActive; try assumption. apply Hus, list_elem_of_here.
  - apply notifyUser_reachableKept. exact Hk.
  - intros u' Hu'. apply Hus, list_elem_of_further. exact Hu'.
Qed.

End Loop.

(** *** The broadcast as a whole *)

Lemma GetActiveUsers_rows (env : Env) (d : Database) (u : User) :
  u ∈ fst (GetActiveUsers env d) ->
  exists r : UserRow,
    r ∈ users d /\ row_chat_id r = ChatID u /\ row_active r = true.
Proof.
  unfold GetActiveUsers. destruct (dbListOk env); cbn [fst]; [|intros H; inversion H].
  intros Hu. apply list_elem_of_fmap in Hu as [r [-> Hr]].
  apply list_elem_of_filter in Hr as [Hact Hr].
  exists r. repeat split; assumption.
Qed.

(** What BroadcastQueueUpdate returns on a snapshot that is present. *)
Lemma BroadcastQueueUpdate_cases (env : Env) (h : gmap loc QueueData) (l : loc)
    (q : QueueData) (changes : option QueueChanges)
    (st : TelegramBot * Database) :
  h !! l = Some q ->
  (exists err : error,
     BroadcastQueueUpdate env h (Some l) changes st = ret (st, Some err))
  \/ BroadcastQueueUpdate env h (Some l) changes st = ret (st, None)
  \/ exists message : string,
       FormatTelegramMessage q changes = ret message
       /\ BroadcastQueueUpdate env h (Some l) changes st
          = ret (foldl (notifyUser env message) st
                   (fst (GetActiveUsers env (snd st))), None).
Proof.
  intros Hq. unfold BroadcastQueueUpdate.
  destruct (GetActiveUsers env (snd st)) as [us [e|]] eqn:Hus.
  - left. eexists. reflexivity.
  - right. destruct (decide (length us = 0%nat)); [left; reflexivity|].
    right. rewrite (deref_valid h l q Hq). cbn [mbind go_bind bind].
    destruct (FormatTelegramMessage_total q changes) as [message Hm].
    exists message. split; [exact Hm|]. rewrite Hm. reflexivity.
Qed.

(** X17: a broadcast keeps the stored handles sound.  If before it no
    stored handle is 0 and every chat with a stored handle has an active
    row, then the same holds after it, whatever the collaborators answer
    (listing failed, updates and sends failed, deactivations refused). *)
Theorem BroadcastQueueUpdate_keeps_handles_sound (env : Env)
    (h : gmap loc QueueData) (l : loc) (q : QueueData)
    (changes : option QueueChanges) (b : TelegramBot) (d : Database) :
  h !! l = Some q -> handlesNonZero b -> handlesActive (b, d) ->
  exists (b' : TelegramBot) (d' : Database) (e : option error),
    BroadcastQueueUpdate env h (Some l) changes (b, d) = ret (b', d', e)
    /\ handlesNonZero b'
    /\ handlesActive (b', d').
Proof.
  intros Hq Hnz Hact.
  destruct (BroadcastQueueUpdate_cases env h l q changes (b, d) Hq)
    as [[err ->]|[->|[message [_ ->]]]].
  - exists b, d, (Some err). repeat split; assumption.
  - exists b, d, None. repeat split; assumption.
  - cbn [snd].
    destruct (foldl_invariants env message d
                (fst (GetActiveUsers env d)) (b, d) Hnz Hact) as [Hnz' Hact'].
    + intros c _ r Hr _. exact Hr.
    + intros u Hu. apply (GetActiveUsers_rows env d u Hu).
    + destruct (foldl _ _ _) as [b' d'].
      exists b', d', None. repeat split; assumption.
Qed.

Lemma botSample_handles :
  handlesNonZero botSample /\ handlesActive (botSample, dbSample).
Proof.
  split.
  - intros c m. cbn. rewrite lookup_insert.
    destruct (decide (8 = c)); [intros [= <-]; discriminate|].
    rewrite lookup_insert.
    destruct (decide (7 = c)); [intros [= <-]; discriminate|].
    rewrite lookup_empty. discriminate.
  - intros c m. cbn. rewrite lookup_insert.
    destruct (decide (8 = c)) as [<-|].
    + intros _. exists (mkUserRow 2 8 None zeroTime true).
      split; [apply list_elem_of_further, list_elem_of_here | split; reflexivity].
    + rewrite lookup_insert. destruct (decide (7 = c)) as [<-|].
      * intros _. exists (mkUserRow 1 7 (Some "anna") zeroTime true).
        split; [apply list_elem_of_here | split; reflexivity].
      * rewrite lookup_empty. discriminate.
Qed.

Lemma BroadcastQueueUpdate_keeps_handles_sound_witness :
  exists (b' : TelegramBot) (d' : Database) (e : option error),
    BroadcastQueueUpdate envSample twoSnapshots (Some 2%positive) None
      (botSample, dbSample) = ret (b', d', e)
    /\ handlesNonZero b'
    /\ handlesActive (b', d').
Proof.
  apply (BroadcastQueueUpdate_keeps_handles_sound envSample twoSnapshots
           2%positive snapshotLater None botSample dbSample eq_refl
           (proj1 botSample_handles) (proj2 botSample_handles)).
Defined.

(** *** What a broadcast leaves alone *)

Lemma DeactivateUser_other_rows (env : Env) (chatID c : Z) (d : Database) :
  chatID <> c ->
  filter (fun r => row_chat_id r = c) (users (fst (DeactivateUser env chatID d)))
    = filter (fun r => row_chat_id r = c) (users d).
Proof.
  intros Hne. unfold DeactivateUser.
  destruct (dbDeactivateOk env chatID); [|reflexivity]. cbn [fst users].
  induction (users d) as [|r rows IH]; [reflexivity|].
  rewrite fmap_cons, !filter_cons, deactivateRow_chat, IH.
  destruct (decide (row_chat_id r = c)) as [Hc|_]; [|reflexivity].
  unfold deactivateRow. destruct (decide _); [congruence | reflexivity].
Qed.

Lemma notifyUser_other_rows (env : Env) (message : string) (c : Z)
    (st : TelegramBot * Database) (u : User) :
  ChatID u <> c ->
  filter (fun r => row_chat_id r = c) (users (snd (notifyUser env message st u)))
    = filter (fun r => row_chat_id r = c) (users (snd st)).
Proof.
  intros Hne. destruct st as [b d]. unfold notifyUser, sendNew.
  destruct (userMsgs b !! ChatID u) as [msgID|].
  - destruct (updateMessage env (ChatID u) msgID message); [|reflexivity].
    destruct (decide _); [reflexivity|].
    apply DeactivateUser_other_rows. exact Hne.
  - destruct (decide _); [reflexivity|].
    apply DeactivateUser_other_rows. exact Hne.
Qed.

Lemma foldl_other_chat (env : Env) (message : string) (c : Z) (us : list User) :
  forall st : TelegramBot * Database,
    (forall u : User, u ∈ us -> ChatID u <> c) ->
    userMsgs (fst (foldl (notifyUser env message) st us)) !! c
      = userMsgs (fst st) !! c
    /\ filter (fun r => row_chat_id r = c)
         (users (snd (foldl (notifyUser env message) st us)))
       = filter (fun r => row_chat_id r = c) (users (snd st)).
Proof.
  induction us as [|u us IH]; intros st Hus; [split; reflexivity|].
  cbn [foldl].
  assert (Hu : ChatID u <> c) by apply Hus, list_elem_of_here.
  destruct (IH (notifyUser env message st u)) as [H1 H2].
  { intros u' Hu'. apply Hus, list_elem_of_further. exact Hu'. }
  rewrite H1, H2. destruct st as [b d]. split.
  - apply notifyUser_handle_other. exact Hu.
  - apply (notifyUser_other_rows env message c (b, d) u Hu).
Qed.

(** X18: a broadcast touches the chats of the listed active users only:
    for every other chat (deactivated, or without a row) the stored
    handle and the rows are after the broadcast what they were before;
    and the history is never touched. *)
Theorem BroadcastQueueUpdate_leaves_unlisted_chats (env : Env)
    (h : gmap loc QueueData) (l : loc) (q : QueueData)
    (changes : option QueueChanges) (b : TelegramBot) (d : Database) :
  h !! l = Some q ->
  exists (b' : TelegramBot) (d' : Database) (e : option error),
    BroadcastQueueUpdate env h (Some l) changes (b, d) = ret (b', d', e)
    /\ queue_history d' = queue_history d
    /\ forall c : Z,
        (forall u : User, u ∈ fst (GetActiveUsers env d) -> ChatID u <> c) ->
        userMsgs b' !! c = userMsgs b !! c
        /\ filter (fun r => row_chat_id r = c) (users d')
           = filter (fun r => row_chat_id r = c) (users d).
Proof.
  intros Hq.
  destruct (BroadcastQueueUpdate_cases env h l q changes (b, d) Hq)
    as [[err ->]|[->|[message [_ ->]]]].
  - exists b, d, (Some err). repeat split; reflexivity.
  - exists b, d, None. repeat split; reflexivity.
  - cbn [snd].
    pose proof (foldl_other_chat env message) as Hother.
    assert (Hhist : queue_history
                      (snd (foldl (notifyUser env message) (b, d)
                              (fst (GetActiveUsers env d))))
                    = queue_history d).
    { generalize (fst (GetActiveUsers env d)). intros us.
      change d with (snd (b, d)) at 2. generalize (b, d).
      induction us as [|u us IH]; intros st; [reflexivity|].
      cbn [foldl]. rewrite IH. destruct st as [b0 d0].
      unfold notifyUser, sendNew, DeactivateUser.
      destruct (userMsgs b0 !! ChatID u) as [msgID|].
      - destruct (updateMessage env (ChatID u) msgID message); [|reflexivity].
        destruct (decide _); [reflexivity|].
        destruct (dbDeactivateOk env (ChatID u)); reflexivity.
      - destruct (decide _); [reflexivity|].
        destruct (dbDeactivateOk env (ChatID u)); reflexivity. }
    specialize (Hother).
    destruct (foldl (notifyUser env message) (b, d) (fst (GetActiveUsers env d)))
      as [b' d'] eqn:Hf.
    exists b', d', None. split; [reflexivity|]. split; [exact Hhist|].
    intros c Hc.
    destruct (Hother c (fst (GetActiveUsers env d)) (b, d) Hc) as [H1 H2].
    rewrite Hf in H1, H2. split; [exact H1 | exact H2].
Qed.

Lemma BroadcastQueueUpdate_leaves_unlisted_chats_witness :
  exists (b' : TelegramBot) (d' : Database) (e : option error),
    BroadcastQueueUpdate envSample twoSnapshots (Some 2%positive) None
      (botSample, dbSample) = ret (b', d', e)
    /\ queue_history d' = queue_history dbSample
    /\ forall c : Z,
        (forall u : User, u ∈ fst (GetActiveUsers envSample dbSample) -> ChatID u <> c) ->
        userMsgs b' !! c = userMsgs botSample !! c
        /\ filter (fun r => row_chat_id r = c) (users d')
           = filter (fun r => row_chat_id r = c) (users dbSample).
Proof.
  apply (BroadcastQueueUpdate_leaves_unlisted_chats envSample twoSnapshots
           2%positive snapshotLater None botSample dbSample eq_refl).
Defined.

Lemma deactivateRow_absorbed (c : Z) (r : UserRow) :
  deactivateRow c (deactivateRow (row_chat_id r) r)
    = deactivateRow (row_chat_id r) r.
Proof.
  unfold deactivateRow. destruct (decide (row_chat_id r = row_chat_id r));
    [|contradiction]. cbn. destruct (decide _); reflexivity.
Qed.

Lemma sameOrDeactivated_step (env : Env) (chatID : Z) (rows : list UserRow)
    (d : Database) :
  Forall2 sameOrDeactivated rows (users d) ->
  Forall2 sameOrDeactivated rows (users (fst (DeactivateUser env chatID d))).
Proof.
  unfold DeactivateUser. destruct (dbDeactivateOk env chatID); [|trivial].
  cbn [fst users]. intros H. induction H as [|r r' l l' Hr _ IH];
    [constructor|].
  rewrite fmap_cons. constructor; [|exact IH].
  destruct Hr as [-> | ->].
  - unfold sameOrDeactivated, deactivateRow.
    destruct (decide (row_chat_id r = chatID)) as [Hc|_]; [|left; reflexivity].
    right. destruct (decide (row_chat_id r = row_chat_id r)); [reflexivity|contradiction].
  - right. apply deactivateRow_absorbed.
Qed.

Lemma notifyUser_sameOrDeactivated (env : Env) (message : string)
    (rows : list UserRow) (st : TelegramBot * Database) (u : User) :
  Forall2 sameOrDeactivated rows (users (snd st)) ->
  Forall2 sameOrDeactivated rows (users (snd (notifyUser env message st u))).
Proof.
  intros H. destruct st as [b d]. unfold notifyUser, sendNew.
  destruct (userMsgs b !! ChatID u) as [msgID|].
  - destruct (updateMessage env (ChatID u) msgID message); [|exact H].
    destruct (decide _); [exact H|]. apply sameOrDeactivated_step. exact H.
  - destruct (decide _); [exact H|]. apply sameOrDeactivated_step. exact H.
Qed.

Lemma sameOrDeactivated_active (rows rows' : list UserRow) :
  Forall2 sameOrDeactivated rows rows' ->
  (forall r' : UserRow, r' ∈ rows' -> row_active r' = true -> r' ∈ rows)
  /\ (length (filter (fun r => row_active r = true) rows')
      <= length (filter (fun r => row_active r = true) rows))%nat.
Proof.
  intros H. induction H as [|r r' rows rows' Hr _ [IH1 IH2]].
  - split; [intros r' Hr'; inversion Hr' | reflexivity].
  - split.
    + intros x Hx Hact. apply elem_of_cons in Hx as [->|Hx].
      * destruct Hr as [-> | ->]; [apply list_elem_of_here|].
        exfalso. unfold deactivateRow in Hact.
        destruct (decide _); [discriminate Hact | contradiction].
      * apply list_elem_of_further. apply IH1; assumption.
    + rewrite !filter_cons.
      destruct (decide (row_active r' = true)) as [Hact|_].
      * destruct Hr as [-> | ->].
        -- destruct (decide _); [cbn; lia | contradiction].
        -- exfalso. unfold deactivateRow in Hact.
           destruct (decide _); [discriminate Hact | contradiction].
      * destruct (decide _); cbn; lia.
Qed.

Lemma Forall2_same (rows : list UserRow) : Forall2 sameOrDeactivated rows rows.
Proof. induction rows; constructor; [left; reflexivity | assumption]. Qed.

(** X19: a broadcast never adds, removes or activates a subscriber: after
    it the table holds the same rows in the same order, each one either
    untouched or deactivated; whoever is listed as active after it was
    listed before it, and the count of the active users has not grown. *)
Theorem BroadcastQueueUpdate_never_activates (env : Env)
    (h : gmap loc QueueData) (l : loc) (q : QueueData)
    (changes : option QueueChanges) (b : TelegramBot) (d : Database) :
  h !! l = Some q ->
  exists (b' : TelegramBot) (d' : Database) (e : option error),
    BroadcastQueueUpdate env h (Some l) changes (b, d) = ret (b', d', e)
    /\ Forall2 sameOrDeactivated (users d) (users d')
    /\ (forall (env' : Env) (u : User),
          u ∈ fst (GetActiveUsers env' d') -> u ∈ fst (GetActiveUsers env' d))
    /\ fst (GetUserCount true d') <= fst (GetUserCount true d).
Proof.
  intros Hq.
  assert (Hgoal : forall (b' : TelegramBot) (d' : Database) (e : option error),
            Forall2 sameOrDeactivated (users d) (users d') ->
            BroadcastQueueUpdate env h (Some l) changes (b, d) = ret (b', d', e) ->
            exists (b' : TelegramBot) (d' : Database) (e : option error),
              BroadcastQueueUpdate env h (Some l) changes (b, d) = ret (b', d', e)
              /\ Forall2 sameOrDeactivated (users d) (users d')
              /\ (forall (env' : Env) (u : User),
                    u ∈ fst (GetActiveUsers env' d') ->
                    u ∈ fst (GetActiveUsers env' d))
              /\ fst (GetUserCount true d') <= fst (GetUserCount true d)).
  { intros b' d' e HF Hb. exists b', d', e. split; [exact Hb|]. split; [exact HF|].
    destruct (sameOrDeactivated_active _ _ HF) as [Hin Hlen]. split.
    - intros env' u. unfold GetActiveUsers.
      destruct (dbListOk env'); cbn [fst]; [|trivial].
      intros Hu. apply list_elem_of_fmap in Hu as [r [-> Hr]].
      apply list_elem_of_filter in Hr as [Hact Hr].
      apply list_elem_of_fmap_2, list_elem_of_filter. split; [exact Hact|].
      apply Hin; assumption.
    - cbn [GetUserCount fst]. lia. }
  destruct (BroadcastQueueUpdate_cases env h l q changes (b, d) Hq)
    as [[err Hb]|[Hb|[message [_ Hb]]]].
  - apply (Hgoal b d (Some err)); [apply Forall2_same | exact Hb].
  - apply (Hgoal b d None); [apply Forall2_same | exact Hb].
  - cbn [snd] in Hb.
    assert (HF : Forall2 sameOrDeactivated (users d)
                   (users (snd (foldl (notifyUser env message) (b, d)
                                  (fst (GetActiveUsers env d)))))).
    { generalize (fst (GetActiveUsers env d)). intros us.
      assert (H0 : Forall2 sameOrDeactivated (users d) (users (snd (b, d))))
        by apply Forall2_same.
      revert H0. generalize (b, d).
      induction us as [|u us IH]; intros st H0; [exact H0|].
      cbn [foldl]. apply IH. apply notifyUser_sameOrDeactivated. exact H0. }
    destruct (foldl (notifyUser env message) (b, d) (fst (GetActiveUsers env d)))
      as [b' d'].
    apply (Hgoal b' d' None); [exact HF | exact Hb].
Qed.

Lemma BroadcastQueueUpdate_never_activates_witness :
  exists (b' : TelegramBot) (d' : Database) (e : option error),
    BroadcastQueueUpdate envSample twoSnapshots (Some 2%positive) None
      (botSample, dbSample) = ret (b', d', e)
    /\ Forall2 sameOrDeactivated (users dbSample) (users d')
    /\ (forall (env' : Env) (u : User),
          u ∈ fst (GetActiveUsers env' d') ->
          u ∈ fst (GetActiveUsers env' dbSample))
    /\ fst (GetUserCount true d') <= fst (GetUserCount true dbSample).
Proof.
  apply (BroadcastQueueUpdate_never_activates envSample twoSnapshots 2%positive
           snapshotLater None botSample dbSample eq_refl).
Defined.

(** X20: the broadcast reads the snapshot only when there is somebody to
    notify.  When the listing of the users fails it returns the error and
    changes nothing, and when nobody is active it returns without error
    and changes nothing, in both cases even for a nil snapshot; with an
    active user and a nil snapshot it panics. *)
Theorem BroadcastQueueUpdate_without_users (env : Env) (h : gmap loc QueueData)
    (queueData : ptr) (changes : option QueueChanges)
    (st : TelegramBot * Database) :
  (dbListOk env = false ->
   exists err : error,
     BroadcastQueueUpdate env h queueData changes st = ret (st, Some err))
  /\ (dbListOk env = true -> inactiveAll (snd st) ->
      BroadcastQueueUpdate env h queueData changes st = ret (st, None))
  /\ (dbListOk env = true -> ~ inactiveAll (snd st) ->
      BroadcastQueueUpdate env h None changes st = panic).
Proof.
  unfold inactiveAll, BroadcastQueueUpdate, GetActiveUsers.
  split; [|split].
  - intros ->. eexists. reflexivity.
  - intros -> Hnone. rewrite filter_none; [reflexivity|].
    intros r Hr Hact. rewrite (Hnone r Hr) in Hact. discriminate.
  - intros -> Hsome.
    destruct (filter (fun r => row_active r = true) (users (snd st)))
      as [|r rows] eqn:Hf; [|reflexivity].
    exfalso. apply Hsome. intros r Hr.
    destruct (row_active r) eqn:Hact; [|reflexivity].
    assert (Hin : r ∈ filter (fun r => row_active r = true) (users (snd st)))
      by (apply list_elem_of_filter; split; assumption).
    rewrite Hf in Hin. inversion Hin.
Qed.

Lemma BroadcastQueueUpdate_without_users_witness :
  BroadcastQueueUpdate envSample twoSnapshots None None (botSample, dbSample)
    = panic.
Proof.
  apply (proj2 (proj2 (BroadcastQueueUpdate_without_users envSample twoSnapshots
                         None None (botSample, dbSample)))).
  - reflexivity.
  - intros Hall.
    discriminate (Hall (mkUserRow 1 7 (Some "anna") zeroTime true)
                    ltac:(apply list_elem_of_here)).
Defined.

(** ** The /start command *)

(** X21: handleStartCommand never panics and always answers with exactly
    one message, sent to the chat of the command.  When the registration
    fails nothing changes.  When it succeeds the table is the one AddUser
    leaves and the handles of the other chats are untouched; the handle
    of the chat is replaced exactly when a snapshot was available and the
    message that shows it was sent, and it is otherwise left as it was,
    even when it refers to an older message. *)
Theorem handleStartCommand_answers (env : Env) (addOk : bool) (rowid : Z)
    (now : Time) (latest : option QueueData * option error)
    (chatID : Z) (username : string) (b : TelegramBot) (d : Database) :
  exists (b' : TelegramBot) (d' : Database) (text : string),
    handleStartCommand env addOk rowid now latest chatID username (b, d)
      = ret (b', d', [(chatID, text)]%list)
    /\ (addOk = false -> b' = b /\ d' = d /\ text = registrationFailedText)
    /\ (addOk = true ->
        d' = fst (AddUser true rowid now chatID username d)
        /\ (forall c : Z, c <> chatID -> userMsgs b' !! c = userMsgs b !! c)
        /\ (forall q : QueueData,
              latest = (Some q, None) ->
              FormatTelegramMessage q None = ret text
              /\ (sendMessage env chatID text <> 0 ->
                  userMsgs b' !! chatID = Some (sendMessage env chatID text))
              /\ (sendMessage env chatID text = 0 -> b' = b))
        /\ ((forall q : QueueData, latest <> (Some q, None)) -> b' = b)).
Proof.
  unfold handleStartCommand. destruct addOk.
  - cbn [AddUser].
    destruct latest as [[q|] [e|]].
    + eexists; eexists; eexists. split; [reflexivity|].
      split; [discriminate|]. intros _. split; [reflexivity|].
      split; [reflexivity|]. split; [discriminate | reflexivity].
    + destruct (FormatTelegramMessage_total q None) as [message Hm].
      rewrite Hm. cbn [mbind go_bind bind].
      destruct (decide (sendMessage env chatID message ≠ 0)) as [Hs|Hs].
      * eexists; eexists; eexists. split; [reflexivity|].
        split; [discriminate|]. intros _. split; [reflexivity|]. split.
        -- intros c Hc. cbn [userMsgs]. apply lookup_insert_ne. congruence.
        -- split.
           ++ intros q' [= <-]. split; [exact Hm|]. split.
              ** intros _. cbn [userMsgs]. apply lookup_insert_eq.
              ** intros Hz. contradiction.
           ++ intros Hno. exfalso. apply (Hno q). reflexivity.
      * eexists; eexists; eexists. split; [reflexivity|].
        split; [discriminate|]. intros _. split; [reflexivity|].
        split; [reflexivity|]. split.
        -- intros q' [= <-]. split; [exact Hm|]. split; [|reflexivity].
           intros Hnz. contradiction.
        -- reflexivity.
    + eexists; eexists; eexists. split; [reflexivity|].
      split; [discriminate|]. intros _. split; [reflexivity|].
      split; [reflexivity|]. split; [discriminate | reflexivity].
    + eexists; eexists; eexists. split; [reflexivity|].
      split; [discriminate|]. intros _. split; [reflexivity|].
      split; [reflexivity|]. split; [discriminate | reflexivity].
  - cbn [AddUser]. eexists; eexists; eexists. split; [reflexivity|].
    split; [intros _; repeat split | discriminate].
Qed.

Lemma AddUser_keeps_other (rowid : Z) (now : Time) (chatID : Z)
    (username : string) (d : Database) (r : UserRow) :
  r ∈ users d -> row_chat_id r <> chatID -> row_id r <> rowid ->
  r ∈ users (fst (AddUser true rowid now chatID username d)).
Proof.
  intros Hr Hc Hi. cbn [AddUser fst users]. apply elem_of_app. left.
  apply list_elem_of_filter. repeat split; assumption.
Qed.

Lemma AddUser_new_row (rowid : Z) (now : Time) (chatID : Z)
    (username : string) (d : Database) :
  exists r : UserRow,
    r ∈ users (fst (AddUser true rowid now chatID username d))
    /\ row_chat_id r = chatID /\ row_active r = true.
Proof.
  eexists. split; [|split].
  - cbn [AddUser fst users]. apply elem_of_app. right.
    apply list_elem_of_singleton. reflexivity.
  - reflexivity.
  - reflexivity.
Qed.

Lemma AddUser_uniqueChats (rowid : Z) (now : Time) (chatID : Z)
    (username : string) (d : Database) :
  uniqueChats d -> uniqueChats (fst (AddUser true rowid now chatID username d)).
Proof.
  unfold uniqueChats. cbn [AddUser fst users]. intros Hnd. rewrite fmap_app.
  apply NoDup_app. split; [apply NoDup_fmap_filter; exact Hnd|]. split.
  - intros x Hx Hx'. cbn in Hx'. apply list_elem_of_singleton in Hx'. subst x.
    apply list_elem_of_fmap in Hx as [r [Hc Hr]].
    apply list_elem_of_filter in Hr as [[Hne _] _]. apply Hne. symmetry. exact Hc.
  - cbn. apply NoDup_singleton.
Qed.

(** The three outcomes of handleStartCommand for the state. *)
Lemma handleStartCommand_cases (env : Env) (addOk : bool) (rowid : Z)
    (now : Time) (latest : option QueueData * option error)
    (chatID : Z) (username : string) (b : TelegramBot) (d : Database) :
  (exists sent : list (Z * string),
     handleStartCommand env addOk rowid now latest chatID username (b, d)
       = ret (b, d, sent))
  \/ (exists sent : list (Z * string),
        addOk = true
        /\ handleStartCommand env addOk rowid now latest chatID username (b, d)
           = ret (b, fst (AddUser true rowid now chatID username d), sent))
  \/ (exists m : Z,
        m <> 0
        /\ exists sent : list (Z * string),
            addOk = true
            /\ handleStartCommand env addOk rowid now latest chatID username (b, d)
               = ret (mkTelegramBot (<[chatID := m]> (userMsgs b)),
                      fst (AddUser true rowid now chatID username d), sent)).
Proof.
  unfold handleStartCommand. destruct addOk; [|left; eexists; reflexivity].
  cbn [AddUser]. destruct latest as [[q|] [e|]];
    try (right; left; eexists; split; reflexivity).
  destruct (FormatTelegramMessage_total q None) as [message Hm].
  rewrite Hm. cbn [mbind go_bind bind].
  destruct (decide (sendMessage env chatID message ≠ 0)) as [Hs|Hs].
  - right. right. exists (sendMessage env chatID message). split; [exact Hs|].
    eexists. split; reflexivity.
  - right. left. eexists. split; reflexivity.
Qed.

(** X22: handling a message keeps the registry sound.  For every message
    with a sender, whatever its command and text and whatever the
    collaborators answer, if before it the chats of the table are unique,
    no stored handle is 0 and every chat with a stored handle has an
    active row, then the same holds after it; the id given to a new row
    is one that no row holds. *)
Theorem handleMessage_keeps_registry_sound (env : Env) (addOk : bool)
    (rowid : Z) (now : Time) (latest : option QueueData * option error)
    (chatID : Z) (name command text : string) (b : TelegramBot) (d : Database) :
  (forall r : UserRow, r ∈ users d -> row_id r <> rowid) ->
  uniqueChats d -> handlesNonZero b -> handlesActive (b, d) ->
  exists (b' : TelegramBot) (d' : Database) (sent : list (Z * string)),
    handleMessage env addOk rowid now latest chatID (Some name) command text (b, d)
      = ret (b', d', sent)
    /\ uniqueChats d' /\ handlesNonZero b' /\ handlesActive (b', d').
Proof.
  intros Hfresh Hnd Hnz Hact. unfold handleMessage. cbn [mbind go_bind bind].
  destruct (decide (command = "start")) as [_|_].
  - destruct (handleStartCommand_cases env addOk rowid now latest chatID name b d)
      as [Hsame|[Hadd|[m [Hm Hstore]]]].
    + destruct Hsame as [sent ->]. exists b, d, sent. repeat split; assumption.
    + destruct Hadd as [sent [_ ->]].
      eexists; eexists; exists sent. split; [reflexivity|].
      split; [apply AddUser_uniqueChats; exact Hnd|]. split; [exact Hnz|].
      intros c msgID Hc. cbn [fst snd] in *.
      destruct (Hact c msgID Hc) as [r [Hr [Hrc Hra]]].
      destruct (decide (c = chatID)) as [->|Hne].
      * apply AddUser_new_row.
      * exists r. split; [|split; assumption].
        apply AddUser_keeps_other; [exact Hr | congruence | apply Hfresh; exact Hr].
    + destruct Hstore as [sent [_ ->]].
      eexists; eexists; exists sent. split; [reflexivity|].
      split; [apply AddUser_uniqueChats; exact Hnd|]. split.
      * intros c msgID. cbn [userMsgs]. rewrite lookup_insert.
        destruct (decide (chatID = c)); [intros [= <-]; exact Hm | apply Hnz].
      * intros c msgID. cbn [fst snd userMsgs]. rewrite lookup_insert.
        destruct (decide (chatID = c)) as [<-|Hne].
        -- intros _. apply AddUser_new_row.
        -- intros Hc. destruct (Hact c msgID Hc) as [r [Hr [Hrc Hra]]].
           exists r. split; [|split; assumption].
           apply AddUser_keeps_other; [exact Hr | congruence | apply Hfresh; exact Hr].
  - destruct (decide (text ≠ "")); eexists; eexists; eexists;
      (split; [reflexivity|]); repeat split; assumption.
Qed.

Lemma handleMessage_keeps_registry_sound_witness :
  exists (b' : TelegramBot) (d' : Database) (sent : list (Z * string)),
    handleMessage envSample true 3 (mkTime 9000 0) (Some snapshotLater, None) 9
      (Some "ola") "start" "/start" (botSample, dbSample) = ret (b', d', sent)
    /\ uniqueChats d' /\ handlesNonZero b' /\ handlesActive (b', d').
Proof.
  apply (handleMessage_keeps_registry_sound envSample true 3 (mkTime 9000 0)
           (Some snapshotLater, None) 9 "ola" "start" "/start" botSample dbSample).
  - intros r Hr. apply list_elem_of_In in Hr. cbn in Hr.
    destruct Hr as [<-|[<-|[]]]; discriminate.
  - unfold uniqueChats. cbn. repeat constructor;
      rewrite ?list_elem_of_In; cbn; intuition discriminate.
  - exact (proj1 botSample_handles).
  - exact (proj2 botSample_handles).
Defined.

(** ** The statistics *)

Lemma handles_within_active (b : TelegramBot) (d : Database) :
  handlesActive (b, d) -> uniqueChats d ->
  (size (userMsgs b) <= length (filter (fun r => row_active r = true) (users d)))%nat.
Proof.
  intros Hact Hnd.
  set (chats := row_chat_id <$> filter (fun r => row_active r = true) (users d)).
  assert (Hnd' : NoDup chats) by (apply NoDup_fmap_filter; exact Hnd).
  assert (Hsub : dom (userMsgs b) ⊆ (list_to_set chats : gset Z)).
  { intros c Hc. apply elem_of_dom in Hc as [m Hm].
    destruct (Hact c m Hm) as [r [Hr [Hrc Hra]]]. cbn [snd] in Hr.
    apply elem_of_list_to_set. subst chats. apply list_elem_of_fmap.
    exists r. split; [symmetry; exact Hrc|].
    apply list_elem_of_filter. split; assumption. }
  apply subseteq_size in Hsub.
  rewrite size_dom, size_list_to_set in Hsub by exact Hnd'.
  subst chats. rewrite length_fmap in Hsub. exact Hsub.
Qed.

(** X23: on a registry that is sound (unique chats, every chat with a
    stored handle active), GetStats never reports more stored messages
    than active users; when the count of the users fails it returns an
    error and no statistics. *)
Theorem GetStats_consistent (self : string) (b : TelegramBot) (d : Database) :
  (exists err : error, GetStats false self (b, d) = (None, Some err))
  /\ (handlesActive (b, d) -> uniqueChats d ->
      exists stats : Stats,
        GetStats true self (b, d) = (Some stats, None)
        /\ bot_username stats = self
        /\ 0 <= stored_messages stats <= active_users stats).
Proof.
  split; [eexists; reflexivity|]. intros Hact Hnd.
  eexists. split; [reflexivity|]. split; [reflexivity|].
  cbn [stored_messages active_users]. unfold getStoredMessageCount. cbn [fst snd].
  pose proof (handles_within_active b d Hact Hnd). lia.
Qed.

Lemma GetStats_consistent_witness :
  exists stats : Stats,
    GetStats true "karta_bot" (botSample, dbSample) = (Some stats, None)
    /\ bot_username stats = "karta_bot"
    /\ 0 <= stored_messages stats <= active_users stats.
Proof.
  apply (proj2 (GetStats_consistent "karta_bot" botSample dbSample)).
  - exact (proj2 botSample_handles).
  - unfold uniqueChats. cbn. repeat constructor;
      rewrite ?list_elem_of_In; cbn; intuition discriminate.
Defined.

(** ** The text handed to Telegram *)

Lemma safeMarkdown_weaken (s : string) (escaped : bool) :
  safeMarkdown false s = true -> safeMarkdown escaped s = true.
Proof.
  destruct s as [|c s]; [trivial|]. cbn [safeMarkdown].
  destruct (needsEscape c && negb (Ascii.eqb c "*")); [discriminate | trivial].
Qed.

Lemma safeMarkdown_app (a : string) : forall (b : string) (escaped : bool),
  safeMarkdown escaped a = true -> safeMarkdown false b = true ->
  safeMarkdown escaped (a ++ b) = true.
Proof.
  induction a as [|c a IH]; intros b escaped Ha Hb.
  - apply safeMarkdown_weaken. exact Hb.
  - rewrite string_app_cons. cbn [safeMarkdown] in *.
    destruct (needsEscape c && negb (Ascii.eqb c "*")).
    + apply andb_true_iff in Ha as [-> Ha]. cbn. apply IH; assumption.
    + apply IH; assumption.
Qed.

Lemma safeMarkdown_escapeMarkdown (text : string) (escaped : bool) :
  safeMarkdown escaped (escapeMarkdown text) = true.
Proof.
  revert escaped. induction text as [|c text IH]; intros escaped; [reflexivity|].
  cbn [escapeMarkdown]. destruct (needsEscape c) eqn:Hc.
  - cbn [safeMarkdown]. rewrite needsEscape_backslash. cbn.
    rewrite Hc. destruct (negb (Ascii.eqb c "*")); cbn; apply IH.
  - cbn [safeMarkdown]. rewrite Hc. cbn. apply IH.
Qed.

Lemma isDigit_plain (c : ascii) :
  isDigit c = true -> needsEscape c = false /\ Ascii.eqb c "\" = false.
Proof.
  unfold isDigit. cbv zeta. rewrite andb_true_iff, !Z.leb_le. intros [H1 H2].
  assert (Hn : exists n : nat, (48 <= n <= 57)%nat /\ c = ascii_of_nat n).
  { exists (nat_of_ascii c). split; [lia|]. symmetry. apply ascii_nat_embedding. }
  destruct Hn as [n [Hn ->]].
  assert (n = 48 \/ n = 49 \/ n = 50 \/ n = 51 \/ n = 52 \/ n = 53 \/ n = 54
          \/ n = 55 \/ n = 56 \/ n = 57)%nat as Hcases by lia.
  repeat (destruct Hcases as [->|Hcases]; [split; reflexivity|]).
  subst n. split; reflexivity.
Qed.

Lemma safeMarkdown_digits (s : string) (escaped : bool) :
  allDigits s = true -> safeMarkdown escaped s = true.
Proof.
  revert escaped. induction s as [|c s IH]; intros escaped Hs; [reflexivity|].
  cbn [allDigits] in Hs. apply andb_true_iff in Hs as [Hc Hs].
  destruct (isDigit_plain c Hc) as [Hn Hb].
  cbn [safeMarkdown]. rewrite Hn, Hb. cbn. apply IH. exact Hs.
Qed.

Lemma pretty_N_char_digit (x : N) : isDigit (pretty_N_char x) = true.
Proof.
  unfold pretty_N_char.
  repeat (match goal with |- context [match ?y with _ => _ end] => destruct y end;
          try reflexivity).
Qed.

Lemma pretty_N_go_digits (x : N) : forall s : string,
  allDigits s = true -> allDigits (pretty_N_go x s) = true.
Proof.
  induction (N.lt_wf_0 x) as [x _ IH]. intros s Hs.
  destruct (N.eq_dec x 0%N) as [->|Hx]; [rewrite pretty_N_go_0; exact Hs|].
  rewrite pretty_N_go_step by lia. apply IH.
  - apply N.div_lt; lia.
  - cbn [allDigits]. rewrite pretty_N_char_digit, Hs. reflexivity.
Qed.

Lemma pretty_Z_digits (z : Z) : 0 <= z -> allDigits (pretty z) = true.
Proof.
  intros Hz. destruct z as [|p|p]; [reflexivity | | lia].
  unfold pretty, pretty_Z, pretty, pretty_positive, pretty, pretty_N.
  destruct (decide (N.pos p = 0%N)); [reflexivity|].
  apply pretty_N_go_digits. reflexivity.
Qed.

Lemma safeMarkdown_pad2 (n : Z) : 0 <= n -> safeMarkdown false (pad2 n) = true.
Proof.
  intros Hn. unfold pad2. destruct (n <? 10).
  - apply (safeMarkdown_app "0"); [reflexivity|].
    apply safeMarkdown_digits, pretty_Z_digits. exact Hn.
  - apply safeMarkdown_digits, pretty_Z_digits. exact Hn.
Qed.

Lemma safeMarkdown_Format (t : Time) :
  safeMarkdown false (Format_15_04_05 t) = true.
Proof.
  unfold Format_15_04_05. cbv zeta.
  set (secs := ns t / 1000000000 + zone t).
  apply safeMarkdown_app; [apply safeMarkdown_pad2, Z.mod_pos_bound; lia|].
  apply (safeMarkdown_app ":"); [reflexivity|].
  apply safeMarkdown_app; [apply safeMarkdown_pad2, Z.mod_pos_bound; lia|].
  apply (safeMarkdown_app ":"); [reflexivity|].
  apply safeMarkdown_pad2, Z.mod_pos_bound; lia.
Qed.

Lemma safeMarkdown_formatField (changes : option QueueChanges)
    (label value key : string) :
  safeMarkdown false label = true ->
  safeMarkdown false (formatField changes label value key) = true.
Proof.
  intros Hl. unfold formatField. cbv zeta.
  apply safeMarkdown_app.
  - destruct changes as [ch|]; [destruct (index _ _)|]; reflexivity.
  - apply (safeMarkdown_app " *"); [reflexivity|].
    apply safeMarkdown_app; [exact Hl|].
    apply (safeMarkdown_app ":* "); [reflexivity|].
    apply safeMarkdown_app; [apply safeMarkdown_escapeMarkdown | reflexivity].
Qed.

Lemma safeMarkdown_ticketInfo (q : QueueData) (userTicket info : string) :
  ticketInfo q userTicket = ret info -> safeMarkdown false info = true.
Proof.
  unfold ticketInfo. destruct (decide (userTicket ≠ "")); [|intros [= <-]; reflexivity].
  destruct (CalculateWaitTime q userTicket) as [[waitTime err]|]; [|discriminate].
  cbn [mbind go_bind bind].
  destruct (bool_decide (err = None) && (waitTime >? 0)) eqn:Hpos.
  - intros [= <-]. apply andb_true_iff in Hpos as [_ Hpos].
    apply Z.gtb_lt in Hpos.
    assert (Hh : 0 <= Z.quot waitTime 60) by (apply Z.quot_pos; lia).
    assert (Hm : 0 <= Z.rem waitTime 60) by (apply Z.rem_nonneg; lia).
    apply (safeMarkdown_app LF); [reflexivity|].
    apply (safeMarkdown_app "🎫 *Ваш билет "); [reflexivity|].
    apply safeMarkdown_app; [apply safeMarkdown_escapeMarkdown|].
    apply (safeMarkdown_app " \- осталось:* "); [reflexivity|].
    destruct (Z.quot waitTime 60 >? 0).
    + apply safeMarkdown_app; [apply safeMarkdown_digits, pretty_Z_digits, Hh|].
      apply (safeMarkdown_app " ч\. "); [reflexivity|].
      apply safeMarkdown_app; [apply safeMarkdown_digits, pretty_Z_digits, Hm|].
      reflexivity.
    + apply safeMarkdown_app; [apply safeMarkdown_digits, pretty_Z_digits, Hm|].
      reflexivity.
  - destruct (bool_decide (err = None) && (waitTime =? 0)); intros [= <-];
      [|reflexivity].
    apply (safeMarkdown_app LF); [reflexivity|].
    apply (safeMarkdown_app "🎫 *Ваш билет "); [reflexivity|].
    apply safeMarkdown_app; [apply safeMarkdown_escapeMarkdown | reflexivity].
Qed.

(** X24: in every message that the renderer builds, for every snapshot,
    change-set and ticket, each reserved character of MarkdownV2 other
    than the [*] of the bold labels stands right after a backslash; the
    four fixed texts that handleStartCommand and handleMessage send
    through the same sendMessage do not have this form. *)
Theorem rendered_message_is_escaped (q : QueueData)
    (changes : option QueueChanges) (userTicket : string) :
  (exists message : string,
     FormatTelegramMessageWithTicket q changes userTicket = ret message
     /\ safeMarkdown false message = true)
  /\ safeMarkdown false registrationFailedText = false
  /\ safeMarkdown false welcomeLaterText = false
  /\ safeMarkdown false welcomeNoDataText = false
  /\ safeMarkdown false useStartText = false.
Proof.
  split; [|repeat split; reflexivity].
  unfold FormatTelegramMessageWithTicket.
  destruct (ticketInfo q userTicket) as [info|] eqn:Hi.
  - cbn [mbind go_bind bind]. cbv zeta.
    pose proof (safeMarkdown_ticketInfo q userTicket info Hi) as Hinfo.
    match goal with
    | |- context [ret (if ?c then ?x ++ ?tail else ?x)] =>
      assert (Hx : safeMarkdown false x = true)
    end.
    { apply safeMarkdown_app.
      - apply safeMarkdown_app; [|exact Hinfo].
        repeat (apply safeMarkdown_app;
                [|apply safeMarkdown_formatField; reflexivity]).
        reflexivity.
      - apply (safeMarkdown_app LF); [reflexivity|].
        apply (safeMarkdown_app "🔄 *Синхронизация:* "); [reflexivity|].
        apply safeMarkdown_Format. }
    destruct (negb (IsZero (LastChanged q))); eexists; (split; [reflexivity|]);
      [|exact Hx].
    apply safeMarkdown_app; [exact Hx|].
    apply (safeMarkdown_app LF); [reflexivity|].
    apply (safeMarkdown_app "⏰ *Изменение:* "); [reflexivity|].
    apply safeMarkdown_Format.
  - exfalso. unfold ticketInfo in Hi.
    destruct (decide (userTicket ≠ "")); [|discriminate].
    destruct (CalculateWaitTime q userTicket) as [[waitTime err]|] eqn:Hc;
      [|now apply CalculateWaitTime_no_panic in Hc].
    cbn [mbind go_bind bind] in Hi.
    destruct (bool_decide (err = None) && (waitTime >? 0)); [discriminate|].
    destruct (bool_decide (err = None) && (waitTime =? 0)); discriminate.
Qed.

(** X25: escapeMarkdown works character by character: the escaped form of
    a concatenation is the concatenation of the escaped forms, a text
    without any character of the list is returned as it is, and a
    backslash is not in the list: it passes through unescaped, also in
    front of a character that is escaped. *)
Theorem escapeMarkdown_by_character (a b : string) :
  escapeMarkdown (a ++ b) = escapeMarkdown a ++ escapeMarkdown b
  /\ (plainText a = true -> escapeMarkdown a = a)
  /\ escapeMarkdown (a ++ "\" ++ b) = escapeMarkdown a ++ "\" ++ escapeMarkdown b.
Proof.
  split; [apply escapeMarkdown_app|]. split.
  - induction a as [|c a IH]; [reflexivity|]. cbn [plainText escapeMarkdown].
    intros H. apply andb_true_iff in H as [Hc Ha].
    destruct (needsEscape c); [discriminate|]. now rewrite IH.
  - rewrite !escapeMarkdown_app. reflexivity.
Qed.

Lemma escapeMarkdown_by_character_witness :
  escapeMarkdown "K065" = "K065".
Proof.
  apply (proj1 (proj2 (escapeMarkdown_by_character "K065" ""))). reflexivity.
Defined.

(** ** More on the engine *)

Lemma SaveQueueHistory_valid (env : Env) (h : gmap loc QueueData) (l : loc)
    (q : QueueData) (d : Database) :
  h !! l = Some q ->
  exists e : option error,
    SaveQueueHistory env h (Some l) d
      = ret (mkDatabase (users d)
               (queue_history d ++ (if dbSaveOk env then [Some q] else []))%list,
             e).
Proof.
  intros Hq. unfold SaveQueueHistory. rewrite (deref_valid h l q Hq).
  cbn [mbind go_bind bind]. destruct (dbSaveOk env).
  - eexists. reflexivity.
  - eexists. rewrite app_nil_r. destruct d; reflexivity.
Qed.

Lemma notifyUser_history (env : Env) (message : string)
    (st : TelegramBot * Database) (u : User) :
  queue_history (snd (notifyUser env message st u)) = queue_history (snd st).
Proof.
  destruct st as [b d]. unfold notifyUser, sendNew, DeactivateUser.
  destruct (userMsgs b !! ChatID u) as [msgID|].
  - destruct (updateMessage env (ChatID u) msgID message); [|reflexivity].
    destruct (decide _); [reflexivity|].
    destruct (dbDeactivateOk env (ChatID u)); reflexivity.
  - destruct (decide _); [reflexivity|].
    destruct (dbDeactivateOk env (ChatID u)); reflexivity.
Qed.

Lemma foldl_history (env : Env) (message : string) (us : list User) :
  forall st : TelegramBot * Database,
    queue_history (snd (foldl (notifyUser env message) st us))
      = queue_history (snd st).
Proof.
  induction us as [|u us IH]; intros st; [reflexivity|].
  cbn [foldl]. rewrite IH. apply notifyUser_history.
Qed.

Lemma BroadcastQueueUpdate_history (env : Env) (h : gmap loc QueueData)
    (queueData : ptr) (changes : option QueueChanges)
    (st : TelegramBot * Database) (b : TelegramBot) (d : Database)
    (e : option error) :
  BroadcastQueueUpdate env h queueData changes st = ret (b, d, e) ->
  queue_history d = queue_history (snd st).
Proof.
  unfold BroadcastQueueUpdate.
  destruct (GetActiveUsers env (snd st)) as [us [err|]].
  - intros [= -> _]. reflexivity.
  - destruct (decide (length us = 0%nat)).
    + intros [= -> _]. reflexivity.
    + destruct (deref h queueData) as [q|]; [|discriminate].
      cbn [mbind go_bind bind].
      destruct (FormatTelegramMessage q changes) as [message|]; [|discriminate].
      cbn [mbind go_bind bind]. intros [= Hf _].
      pose proof (foldl_history env message us st) as Hh.
      rewrite Hf in Hh. exact Hh.
Qed.

(** X26: a cycle writes the history once, before anything else: when the
    insertion succeeds the history gets one more record, the snapshot as
    it was handed over (with the [LastChanged] it came with, not the one
    the cycle computes); when the insertion fails the history is
    unchanged; nothing else in the cycle touches the history. *)
Theorem processQueueUpdate_history (env : Env) (now : Time)
    (h : gmap loc QueueData) (app : Application) (l : loc) (data : QueueData) :
  h !! l = Some data -> wf h app ->
  exists (h' : gmap loc QueueData) (app' : Application),
    processQueueUpdate env now h app (Some l) = ret (h', app')
    /\ queue_history (db app')
       = (queue_history (db app) ++ (if dbSaveOk env then [Some data] else []))%list.
Proof.
  intros Hq Hwf.
  destruct (processQueueUpdate_spec env now h app l data Hq Hwf)
    as [changes [d1 [b2 [d2 [e [_ [_ H]]]]]]].
  cbv zeta in H. destruct H as [Hdet [Hb Hp]].
  eexists; eexists. split; [exact Hp|]. cbn [db].
  rewrite (BroadcastQueueUpdate_history _ _ _ _ _ _ _ _ Hb). cbn [snd].
  destruct (SaveQueueHistory_valid env h l data (db app) Hq) as [e1 Hs].
  unfold detectChanges in Hdet. rewrite Hs in Hdet. cbn [mbind go_bind bind] in Hdet.
  destruct (CompareQueues h (lastData app) (Some l)) as [ch|]; [|discriminate].
  cbn [mbind go_bind bind] in Hdet.
  destruct (lastData app) as [pl|].
  - destruct (HasChanges ch);
      rewrite (storeLastChanged_valid h l data _ Hq) in Hdet;
      cbn [mbind go_bind bind] in Hdet; injection Hdet as _ <- _; reflexivity.
  - rewrite (storeLastChanged_valid h l data _ Hq) in Hdet.
    cbn [mbind go_bind bind] in Hdet. injection Hdet as _ <- _. reflexivity.
Qed.

Lemma processQueueUpdate_history_witness :
  exists (h' : gmap loc QueueData) (app' : Application),
    processQueueUpdate envSample (mkTime 3000 0) twoSnapshots appSample
      (Some 2%positive) = ret (h', app')
    /\ queue_history (db app')
       = (queue_history (db appSample)
            ++ (if dbSaveOk envSample then [Some snapshotLater] else []))%list.
Proof.
  apply (processQueueUpdate_history envSample (mkTime 3000 0) twoSnapshots
           appSample 2%positive snapshotLater).
  - reflexivity.
  - intros l [= <-]. exists snapshotMorning. reflexivity.
Defined.

(** X27: a cycle writes to the heap in two places only: it sets
    [LastChanged] of the snapshot it was handed and it allocates the
    copy.  Every other object, the snapshot that [lastData] pointed to
    before the cycle among them, is after the cycle what it was before,
    and every object in the heap after the cycle is an old one or the
    copy. *)
Theorem processQueueUpdate_heap (env : Env) (now : Time)
    (h : gmap loc QueueData) (app : Application) (l : loc) (data : QueueData) :
  h !! l = Some data -> wf h app ->
  exists (h' : gmap loc QueueData) (app' : Application),
    processQueueUpdate env now h app (Some l) = ret (h', app')
    /\ (forall l' : loc, l' ∈ dom h -> l' <> l -> h' !! l' = h !! l')
    /\ (forall l' : loc, l' ∈ dom h' -> l' ∈ dom h \/ lastData app' = Some l')
    /\ (forall (pl : loc) (old : QueueData),
          lastData app = Some pl -> pl <> l -> h !! pl = Some old ->
          h' !! pl = Some old).
Proof.
  intros Hq Hwf.
  destruct (processQueueUpdate_spec env now h app l data Hq Hwf)
    as [changes [d1 [b2 [d2 [e [_ [_ H]]]]]]].
  cbv zeta in H. destruct H as [_ [_ Hp]].
  set (t := fst (nextSticky now app changes)) in *.
  set (h1 := <[l := setLastChanged t data]> h) in *.
  assert (Hdom : dom h1 = dom h).
  { subst h1. rewrite dom_insert_L.
    apply set_eq. intros x. rewrite elem_of_union, elem_of_singleton.
    split; [intros [->|Hx]; [apply elem_of_dom; eauto | exact Hx] | auto]. }
  pose proof (is_fresh (dom h1)) as Hfresh.
  assert (Hframe : forall l' : loc, l' ∈ dom h -> l' <> l ->
            <[fresh (dom h1) := setLastChanged t data]> h1 !! l' = h !! l').
  { intros l' Hl' Hne.
    rewrite lookup_insert_ne by (intros E; apply Hfresh; rewrite E, Hdom; exact Hl').
    subst h1. apply lookup_insert_ne. congruence. }
  eexists; eexists. split; [exact Hp|]. split; [exact Hframe|]. split.
  - intros l' Hl'. cbn [lastData]. rewrite dom_insert_L in Hl'.
    apply elem_of_union in Hl' as [Hl'|Hl'].
    + right. apply elem_of_singleton in Hl'. now rewrite Hl'.
    + left. rewrite <- Hdom. exact Hl'.
  - intros pl old Hpl Hne Hold. rewrite Hframe; [exact Hold | | exact Hne].
    apply elem_of_dom. eauto.
Qed.

Lemma processQueueUpdate_heap_witness :
  exists (h' : gmap loc QueueData) (app' : Application),
    processQueueUpdate envSample (mkTime 3000 0) twoSnapshots appSample
      (Some 2%positive) = ret (h', app')
    /\ (forall l' : loc, l' ∈ dom twoSnapshots -> l' <> 2%positive ->
          h' !! l' = twoSnapshots !! l')
    /\ (forall l' : loc, l' ∈ dom h' ->
          l' ∈ dom twoSnapshots \/ lastData app' = Some l')
    /\ (forall (pl : loc) (old : QueueData),
          lastData appSample = Some pl -> pl <> 2%positive ->
          twoSnapshots !! pl = Some old -> h' !! pl = Some old).
Proof.
  apply (processQueueUpdate_heap envSample (mkTime 3000 0) twoSnapshots
           appSample 2%positive snapshotLater).
  - reflexivity.
  - intros l [= <-]. exists snapshotMorning. reflexivity.
Defined.

(** X28: processQueueUpdate must not be handed a nil snapshot: whatever
    the state of the engine and the answers of the collaborators, the
    call panics, and it does so before any notification is sent. *)
Theorem processQueueUpdate_nil_panics (env : Env) (now : Time)
    (h : gmap loc QueueData) (app : Application) :
  detectChanges env now h app None = panic
  /\ processQueueUpdate env now h app None = panic.
Proof.
  assert (Hd : detectChanges env now h app None = panic).
  { unfold detectChanges, SaveQueueHistory. cbn [mbind go_bind bind].
    destruct (dbSaveOk env); cbn [mbind go_bind bind];
      (destruct (lastData app) as [pl|] eqn:Hpl;
       [unfold CompareQueues, deref; destruct (h !! pl); reflexivity
       | reflexivity]). }
  split; [exact Hd|]. unfold processQueueUpdate. rewrite Hd. reflexivity.
Qed.

(** What one cycle leaves behind: the engine points to a copy of the
    snapshot it was handed, which carries the engine's [lastChanged]. *)
Lemma processQueueUpdate_result (env : Env) (now : Time)
    (h : gmap loc QueueData) (app : Application) (l : loc) (data : QueueData) :
  h !! l = Some data -> wf h app ->
  exists (h' : gmap loc QueueData) (app' : Application) (l' : loc),
    processQueueUpdate env now h app (Some l) = ret (h', app')
    /\ lastData app' = Some l'
    /\ h' !! l' = Some (setLastChanged (lastChanged app') data).
Proof.
  intros Hq Hwf.
  destruct (processQueueUpdate_spec env now h app l data Hq Hwf)
    as [changes [d1 [b2 [d2 [e [_ [_ H]]]]]]].
  cbv zeta in H. destruct H as [_ [_ Hp]].
  match type of Hp with
  | _ = ret (?h2, ?app2) => exists h2, app2
  end.
  eexists. split; [exact Hp|]. split; [reflexivity|].
  cbn [lastChanged]. apply lookup_insert_eq.
Qed.

Lemma sameTracked_setLastChanged (t : Time) (P C : QueueData) :
  sameTracked (setLastChanged t P) C <-> sameTracked P C.
Proof. destruct P; reflexivity. Qed.

(** X29: the engine detects changes against the snapshot of the cycle
    before.  After a cycle on a snapshot, whatever happens to the heap in
    between as long as the engine's own copy is left alone, the next
    cycle keeps [lastChanged] and the stored change-set exactly when its
    snapshot agrees with the one before on the seven compared fields (the
    average times and the timestamps may differ); otherwise [lastChanged]
    becomes the time of the later cycle and the stored change-set is the
    new one, with [HasChanges] set and a field flagged. *)
Theorem processQueueUpdate_twice (env1 env2 : Env) (now1 now2 : Time)
    (h : gmap loc QueueData) (app : Application) (l1 : loc) (data1 : QueueData) :
  h !! l1 = Some data1 -> wf h app ->
  exists (h1 : gmap loc QueueData) (app1 : Application),
    processQueueUpdate env1 now1 h app (Some l1) = ret (h1, app1)
    /\ forall (h1' : gmap loc QueueData) (l2 : loc) (data2 : QueueData),
        (forall l : loc, lastData app1 = Some l -> h1' !! l = h1 !! l) ->
        h1' !! l2 = Some data2 ->
        exists (h2 : gmap loc QueueData) (app2 : Application),
          processQueueUpdate env2 now2 h1' app1 (Some l2) = ret (h2, app2)
          /\ (sameTracked data1 data2 ->
              lastChanged app2 = lastChanged app1
              /\ lastChanges app2 = lastChanges app1)
          /\ (~ sameTracked data1 data2 ->
              lastChanged app2 = now2
              /\ exists ch : QueueChanges,
                   lastChanges app2 = Some ch /\ HasChanges ch = true
                   /\ ChangedFields ch <> ∅).
Proof.
  intros Hq1 Hwf.
  destruct (processQueueUpdate_result env1 now1 h app l1 data1 Hq1 Hwf)
    as [h1 [app1 [c1 [H1 [Hl1 Hc1]]]]].
  exists h1, app1. split; [exact H1|].
  intros h1' l2 data2 Hkeep Hq2.
  assert (Hp1 : h1' !! c1 = Some (setLastChanged (lastChanged app1) data1)).
  { rewrite (Hkeep c1 Hl1). exact Hc1. }
  assert (Hwf1 : wf h1' app1).
  { intros pl Hpl. rewrite Hl1 in Hpl. injection Hpl as <-. eauto. }
  destruct (processQueueUpdate_spec env2 now2 h1' app1 l2 data2 Hq2 Hwf1)
    as [changes [d1 [b2 [d2 [e [Hcmp [_ H]]]]]]].
  cbv zeta in H. destruct H as [_ [_ Hp]].
  rewrite Hl1, (CompareQueues_flagsOf h1' c1 l2 _ _ Hp1 Hq2) in Hcmp.
  injection Hcmp as Hch.
  match type of Hp with
  | _ = ret (?h2, ?app2) => exists h2, app2
  end.
  split; [exact Hp|].
  cbn [lastChanged lastChanges]. unfold nextSticky. rewrite Hl1.
  match type of Hch with
  | flagsOf ?b1 ?b2 ?b3 ?b4 ?b5 ?b6 ?b7 ?p ?c = _ =>
    destruct (flagsOf_no_change b1 b2 b3 b4 b5 b6 b7 p c) as [Hempty Hflags]
  end.
  rewrite Hch in Hempty, Hflags.
  assert (Hiff : HasChanges changes = false <-> sameTracked data1 data2).
  { rewrite Hflags, <- (sameTracked_setLastChanged (lastChanged app1)).
    unfold sameTracked. rewrite !bool_decide_eq_false.
    split; intros (A & B & C & D & E & F & G);
      repeat split; try (apply dec_stable; assumption); auto. }
  split.
  - intros Hsame. apply Hiff in Hsame. rewrite Hsame. cbn [fst snd]. split; reflexivity.
  - intros Hdiff. destruct (HasChanges changes) eqn:Hhas.
    + cbn [fst snd]. split; [reflexivity|]. exists changes.
      split; [reflexivity|]. split; [exact Hhas|].
      intros Hnone. apply Hempty in Hnone. congruence.
    + exfalso. apply Hdiff, Hiff. reflexivity.
Qed.

Lemma processQueueUpdate_twice_witness :
  exists (h1 : gmap loc QueueData) (app1 : Application),
    processQueueUpdate envFailing (mkTime 2000 0) twoSnapshots appSample
      (Some 2%positive) = ret (h1, app1)
    /\ forall (h1' : gmap loc QueueData) (l2 : loc) (data2 : QueueData),
        (forall l : loc, lastData app1 = Some l -> h1' !! l = h1 !! l) ->
        h1' !! l2 = Some data2 ->
        exists (h2 : gmap loc QueueData) (app2 : Application),
          processQueueUpdate envSample (mkTime 3000 0) h1' app1 (Some l2)
            = ret (h2, app2)
          /\ (sameTracked snapshotLater data2 ->
              lastChanged app2 = lastChanged app1
              /\ lastChanges app2 = lastChanges app1)
          /\ (~ sameTracked snapshotLater data2 ->
              lastChanged app2 = mkTime 3000 0
              /\ exists ch : QueueChanges,
                   lastChanges app2 = Some ch /\ HasChanges ch = true
                   /\ ChangedFields ch <> ∅).
Proof.
  apply (processQueueUpdate_twice envFailing envSample (mkTime 2000 0)
           (mkTime 3000 0) twoSnapshots appSample 2%positive snapshotLater).
  - reflexivity.
  - intros l [= <-]. exists snapshotMorning. reflexivity.
Defined.
